(** * Odin: a shallow embedding of [odin.py]

    [odin.py] manages Valheim dedicated-server instances: it bootstraps
    steamcmd, provisions a server directory through it ([create] /
    [update]) and launches the server ([start]).  Every effect of the
    script is a filesystem operation, a printed line, or an external
    process; the embedding threads a [world] (filesystem + effect trace)
    through a small state/exit/exception monad and keeps the control flow
    of each Python function. *)

From Stdlib Require Import String Ascii List ZArith Bool Lia.
From stdpp Require Import base option gmap strings list pretty.
Import ListNotations.
Local Open Scope string_scope.
Local Open Scope Z_scope.

(** ** Python [str] helpers *)

Module PyStr.

Definition nl : string := String (ascii_of_nat 10) EmptyString.

(** [s.startswith(p)] *)
Definition startswith (s p : string) : bool := String.prefix p s.

(** [s.endswith('/')] *)
Fixpoint endswith_char (c : ascii) (s : string) : bool :=
  match s with
  | EmptyString => false
  | String a EmptyString => Ascii.eqb a c
  | String _ s' => endswith_char c s'
  end.

(** [s.split(sep)] for a one-character separator *)
Fixpoint split (sep : ascii) (s : string) : list string :=
  match s with
  | EmptyString => [EmptyString]
  | String c s' =>
      if Ascii.eqb c sep then EmptyString :: split sep s'
      else match split sep s' with
           | [] => [String c EmptyString]
           | w :: ws => String c w :: ws
           end
  end.

(** [sep.join(l)] *)
Definition join (sep : string) (l : list string) : string :=
  String.concat sep l.

(** [s.rstrip(c)] *)
Fixpoint rstrip (c : ascii) (s : string) : string :=
  match s with
  | EmptyString => EmptyString
  | String a s' =>
      match rstrip c s' with
      | EmptyString => if Ascii.eqb a c then EmptyString else String a EmptyString
      | r => String a r
      end
  end.

(** [s == c * len(s)] *)
Fixpoint all_char (c : ascii) (s : string) : bool :=
  match s with
  | EmptyString => true
  | String a s' => Ascii.eqb a c && all_char c s'
  end.

(** [x in l] on a tuple of strings *)
Definition mem (x : string) (l : list string) : bool :=
  existsb (String.eqb x) l.

(** [sub in s] *)
Fixpoint contains (sub s : string) : bool :=
  String.prefix sub s ||
  match s with
  | EmptyString => false
  | String _ s' => contains sub s'
  end.

End PyStr.

(** ** [os.path] (POSIX flavour)

    [odin_path] uses [join] and [abspath]; [os.mkdir] needs the parent,
    [dirname].  They are transcribed from [posixpath]: the general
    statements below hold for any path syntax, the runs on the stub hosts
    are written with [/]. *)

Module OsPath.

Definition sep : ascii := "/"%char.

Definition isabs (p : string) : bool := PyStr.startswith p "/".

Definition join2 (path b : string) : string :=
  if PyStr.startswith b "/" then b
  else if (String.eqb path "" || PyStr.endswith_char sep path)%bool then path +:+ b
  else path +:+ "/" +:+ b.

Definition join (a : string) (p : list string) : string :=
  fold_left join2 p a.

(** the loop body of [normpath] over the components *)
Definition norm_step (initial_slashes : bool) (new_comps : list string)
    (comp : string) : list string :=
  if (String.eqb comp "" || String.eqb comp ".")%bool then new_comps
  else if (negb (String.eqb comp "..")
           || (negb initial_slashes && Nat.eqb (length new_comps) 0)
           || match last new_comps with
              | Some c => String.eqb c ".."
              | None => false
              end)%bool
       then new_comps ++ [comp]
  else removelast new_comps.

Definition normpath (path : string) : string :=
  if String.eqb path "" then "."
  else
    let initial_slashes := PyStr.startswith path "/" in
    let two := (PyStr.startswith path "//" && negb (PyStr.startswith path "///"))%bool in
    let comps := fold_left (norm_step initial_slashes) (PyStr.split sep path) [] in
    let body := PyStr.join "/" comps in
    let path' :=
      if initial_slashes then (if two then "//" else "/") +:+ body else body in
    if String.eqb path' "" then "." else path'.

Definition abspath (cwd path : string) : string :=
  if isabs path then normpath path else normpath (join cwd [path]).

Definition dirname (p : string) : string :=
  let comps := PyStr.split sep p in
  let head :=
    match comps with
    | [] | [_] => ""
    | _ => PyStr.join "/" (removelast comps) +:+ "/"
    end in
  if (negb (String.eqb head "") && negb (PyStr.all_char sep head))%bool
  then PyStr.rstrip sep head else head.

End OsPath.

(** ** The filesystem

    "The filesystem is the database": a finite map from absolute,
    normalised path names to nodes. *)

Inductive node : Type :=
| Dir
| File (data : string).

Abbreviation FS := (gmap string node).

(** Errno values the script can meet, with the text of [e.strerror]. *)
Inductive errno : Type := EEXIST | ENOENT | ENOTDIR | EISDIR.

Definition strerror (e : errno) : string :=
  match e with
  | EEXIST => "File exists"
  | ENOENT => "No such file or directory"
  | ENOTDIR => "Not a directory"
  | EISDIR => "Is a directory"
  end.

(** Python exceptions that can escape the script. *)
Inductive exn : Type :=
| OSError (e : errno) (filename : string)
| CalledProcessError (returncode : Z) (cmd : list string)
| URLError
| BadZipFile
| IndexError
| KeyError (key : string)
| re_error.

(** Observable effects, in program order. *)
Inductive event : Type :=
| Print (s : string)
| Mkdir (p : string)
| Rmtree (p : string)
| Remove (p : string)
| WriteFile (p : string)
| UrlOpen (url : string)
| Run (cmd : list string) (returncode : Z)
| Popen (cmd : string) (start_new_session : bool)
| Sleep (seconds : Z).

Record world : Type := World { fs : FS; log : list event }.

Definition emit (e : event) (w : world) : world :=
  World (fs w) (log w ++ [e]).

(** ** The effect monad: state, [exit], exceptions *)

Inductive outcome (A : Type) : Type :=
| Ret (a : A)
| Exit (code : Z)
| Raise (e : exn).
Arguments Ret {A} a.
Arguments Exit {A} code.
Arguments Raise {A} e.

Definition M (A : Type) : Type := world -> outcome A * world.

Definition ret {A} (a : A) : M A := fun w => (Ret a, w).

Definition bind {A B} (m : M A) (f : A -> M B) : M B :=
  fun w =>
    match m w with
    | (Ret a, w') => f a w'
    | (Exit c, w') => (Exit c, w')
    | (Raise e, w') => (Raise e, w')
    end.

Definition exit {A} (code : Z) : M A := fun w => (Exit code, w).
Definition raise {A} (e : exn) : M A := fun w => (Raise e, w).

(** [try: m  except OSError as e: h e] *)
Definition try_except_OSError {A} (m : M A) (h : errno -> string -> M A) : M A :=
  fun w =>
    match m w with
    | (Raise (OSError e f), w') => h e f w'
    | r => r
    end.

Declare Scope odin_scope.
Delimit Scope odin_scope with odin.
Notation "x <- c1 ;; c2" := (bind c1 (fun x => c2))
  (at level 100, c1 at next level, right associativity) : odin_scope.
Notation "c1 ;; c2" := (bind c1 (fun _ => c2))
  (at level 100, right associativity) : odin_scope.
Local Open Scope odin_scope.

Definition when (b : bool) (m : M unit) : M unit := if b then m else ret tt.

(** ** Primitive operations *)

Definition print (s : string) : M unit := fun w => (Ret tt, emit (Print s) w).

Definition time_sleep (n : Z) : M unit := fun w => (Ret tt, emit (Sleep n) w).

Definition exists_in (m : FS) (p : string) : bool :=
  match m !! p with Some _ => true | None => false end.

(** [os.path.exists(p)] *)
Definition os_path_exists (p : string) : M bool :=
  fun w => (Ret (exists_in (fs w) p), w).

(** the error, if any, of creating an entry named [p] *)
Definition parent_error (m : FS) (p : string) : option exn :=
  match m !! OsPath.dirname p with
  | Some Dir => None
  | Some (File _) => Some (OSError ENOTDIR p)
  | None => Some (OSError ENOENT p)
  end.

(** [os.mkdir(p)] *)
Definition os_mkdir (p : string) : M unit :=
  fun w =>
    if exists_in (fs w) p then (Raise (OSError EEXIST p), w)
    else match parent_error (fs w) p with
         | Some e => (Raise e, w)
         | None => (Ret tt, emit (Mkdir p) (World (<[p := Dir]> (fs w)) (log w)))
         end.

(** [p] itself or anything below it *)
Definition under (p k : string) : bool :=
  (String.eqb k p || String.prefix (p +:+ "/") k)%bool.

(** [shutil.rmtree(p)] *)
Definition shutil_rmtree (p : string) : M unit :=
  fun w =>
    match fs w !! p with
    | Some Dir =>
        (Ret tt,
         emit (Rmtree p)
           (World (filter (fun kv => under p (fst kv) = false) (fs w)) (log w)))
    | Some (File _) => (Raise (OSError ENOTDIR p), w)
    | None => (Raise (OSError ENOENT p), w)
    end.

(** [os.remove(p)] *)
Definition os_remove (p : string) : M unit :=
  fun w =>
    match fs w !! p with
    | Some (File _) => (Ret tt, emit (Remove p) (World (delete p (fs w)) (log w)))
    | Some Dir => (Raise (OSError EISDIR p), w)
    | None => (Raise (OSError ENOENT p), w)
    end.

(** [with open(p, 'wb') as z: z.write(data)] *)
Definition write_file (p data : string) : M unit :=
  fun w =>
    match fs w !! p with
    | Some Dir => (Raise (OSError EISDIR p), w)
    | Some (File _) =>
        (Ret tt, emit (WriteFile p) (World (<[p := File data]> (fs w)) (log w)))
    | None =>
        match parent_error (fs w) p with
        | Some e => (Raise e, w)
        | None =>
            (Ret tt, emit (WriteFile p) (World (<[p := File data]> (fs w)) (log w)))
        end
    end.

(** [with open(p, 'rb') as z: z.read()] *)
Definition read_file (p : string) : M string :=
  fun w =>
    match fs w !! p with
    | Some (File d) => (Ret d, w)
    | Some Dir => (Raise (OSError EISDIR p), w)
    | None => (Raise (OSError ENOENT p), w)
    end.

(** [l[i]] *)
Definition index (l : list string) (i : nat) : M string :=
  match nth_error l i with
  | Some x => ret x
  | None => raise IndexError
  end.

(** [d[k]] on a [dict] *)
Definition getitem (d : gmap string string) (k : string) : M string :=
  match d !! k with
  | Some v => ret v
  | None => raise (KeyError k)
  end.

(** ** [re.match] on the patterns the script can build

    [start] hands [' '.join(args)] to [re.match] as the PATTERN, so the
    pattern is operator-supplied text.  Patterns made of ordinary
    characters and [.] are interpreted here; any pattern using another
    regular-expression operator is left to the host's engine. *)

Module Re.

Inductive result : Type :=
| Match (group0 : string)
| NoMatch
| Error.

Inductive atom : Type :=
| Lit (c : ascii)
| AnyChar.

(** the characters [re] treats specially *)
Definition special (c : ascii) : bool :=
  existsb (Ascii.eqb c) (list_ascii_of_string ".^$*+?{}[]\|()").

Fixpoint parse (p : string) : option (list atom) :=
  match p with
  | EmptyString => Some []
  | String c p' =>
      if Ascii.eqb c "."%char then cons AnyChar <$> parse p'
      else if special c then None
      else cons (Lit c) <$> parse p'
  end.

Definition atom_ok (a : atom) (c : ascii) : bool :=
  match a with
  | Lit x => Ascii.eqb c x
  | AnyChar => negb (Ascii.eqb c (ascii_of_nat 10))
  end.

(** anchored match; the result is the matched text, [m[0]] *)
Fixpoint match_atoms (l : list atom) (s : string) : option string :=
  match l, s with
  | [], _ => Some EmptyString
  | a :: l', String c s' =>
      if atom_ok a c then String c <$> match_atoms l' s' else None
  | _ :: _, EmptyString => None
  end.

Definition match_ (engine : string -> string -> result)
    (pattern subject : string) : result :=
  match parse pattern with
  | Some l =>
      match match_atoms l subject with
      | Some g => Match g
      | None => NoMatch
      end
  | None => engine pattern subject
  end.

End Re.

(** ** The host: what the script finds outside itself *)

Record host : Type := Host {
  (** [os.path.dirname(os.path.realpath(__file__))] *)
  script_dir : string;
  (** [os.getcwd()] *)
  getcwd : string;
  (** [urllib.request.urlopen(url).read()]; [None]: the request fails *)
  urlopen : string -> option string;
  (** members (name, data) of a zip archive; [None]: not a zip file *)
  zip_members : string -> option (list (string * string));
  (** an external process run to completion on a filesystem: the
      filesystem it leaves and its exit status; [None]: the executable
      cannot be launched *)
  run_process : list string -> FS -> option (FS * Z);
  (** [re.match] outside the interpreted patterns *)
  re_engine : string -> string -> Re.result
}.

(** *** Stub hosts (an install root at [/odin]) *)

Module Stub.

(** a freshly unpacked script: only the install root exists *)
Definition fresh_fs : FS := <["/odin" := Dir]> (<["/" := Dir]> ∅).

(** after a completed bootstrap *)
Definition ready_fs : FS :=
  <["/odin/servers" := Dir]>
    (<["/odin/worlds" := Dir]>
       (<["/odin/steamcmd/steamcmd.exe" := File "MZ"]>
          (<["/odin/steamcmd" := Dir]> fresh_fs))).

(** instance [foo] created, but nothing installed in it *)
Definition empty_foo_fs : FS := <["/odin/servers/foo" := Dir]> ready_fs.

(** instance [foo] provisioned *)
Definition foo_fs : FS :=
  <["/odin/servers/foo/valheim_server.exe" := File "MZ"]> empty_foo_fs.

(** instance [....p] provisioned *)
Definition dots_fs : FS :=
  <["/odin/servers/....p/valheim_server.exe" := File "MZ"]>
    (<["/odin/servers/....p" := Dir]> ready_fs).

(** the directory following [+force_install_dir] *)
Fixpoint install_dir (cmd : list string) : option string :=
  match cmd with
  | "+force_install_dir" :: d :: _ => Some d
  | _ :: cmd' => install_dir cmd'
  | [] => None
  end.

(** an installer that always fails, touching nothing *)
Definition failing_installer (cmd : list string) (m : FS) : option (FS * Z) :=
  Some (m, 1).

(** an installer that always succeeds and writes a marker file *)
Definition marker_installer (cmd : list string) (m : FS) : option (FS * Z) :=
  match install_dir cmd with
  | Some d => Some (<[d +:+ "/marker" := File "installed"]> m, 0)
  | None => Some (m, 0)
  end.

Definition no_engine (pattern subject : string) : Re.result := Re.Error.

Definition offline (url : string) : option string := None.
Definition no_zip (data : string) : option (list (string * string)) := None.

(** a mirror serving a one-file steamcmd archive *)
Definition mirror (url : string) : option string := Some "PK-steamcmd".
Definition unzip (data : string) : option (list (string * string)) :=
  if String.eqb data "PK-steamcmd" then Some [("steamcmd.exe", "MZ")] else None.

Definition failing_host : host :=
  Host "/odin" "/home/op" offline no_zip failing_installer no_engine.

Definition marker_host : host :=
  Host "/odin" "/home/op" offline no_zip marker_installer no_engine.

Definition online_host : host :=
  Host "/odin" "/home/op" mirror unzip marker_installer no_engine.

End Stub.

(** ** The script *)

Section Odin.

Variable h : host.

(** *** Convenience print funcs *)

Definition nice (s : string) : M unit := print ("  ✔ " +:+ s).
Definition damn (s : string) : M unit := print ("  ✖ " +:+ s).

(** *** Help screen *)

Definition help_text : string :=
  PyStr.join PyStr.nl
    [ "";
      "Usage: python odin.py <COMMAND> <WORLDNAME> [..OPTIONS]";
      "";
      "    Manage valheim server instances";
      "      (Password is always 123456)";
      "";
      "<COMMAND>";
      " create <world>            Creates a new server";
      " start  <world> [-p PORT]  Starts a server (default port: 2456)";
      " backup <world>            Backup a world";
      " update <world>            Update server files";
      " help                      You're looking at it";
      "" ].

Definition help : M unit := print help_text.

(** *** Get relative dir *)

Definition odin_path (path_names : list string) : string :=
  let root := script_dir h in
  let path := OsPath.join root path_names in
  OsPath.abspath (getcwd h) path.

(** *** Library calls made by the script *)

(** [subprocess.call(cmd)]: run to completion, return the exit status *)
Definition subprocess_call (cmd : list string) : M Z :=
  fun w =>
    match run_process h cmd (fs w) with
    | Some (m', rc) => (Ret rc, emit (Run cmd rc) (World m' (log w)))
    | None => (Raise (OSError ENOENT (hd "" cmd)), w)
    end.

(** [subprocess.check_call(cmd)]: as [call], but a nonzero status is
    raised as [CalledProcessError]; the value returned is always 0 *)
Definition subprocess_check_call (cmd : list string) : M Z :=
  retcode <- subprocess_call cmd ;;
  if negb (retcode =? 0) then raise (CalledProcessError retcode cmd)
  else ret 0.

(** [subprocess.Popen(cmd, start_new_session=b)] on a command-line
    string: the child ([cmd /C ...]) is started and not waited for; what
    it does later is outside the script's run *)
Definition subprocess_Popen (cmd : string) (start_new_session : bool) : M unit :=
  fun w => (Ret tt, emit (Popen cmd start_new_session) w).

(** [urllib.request.urlopen(url)] followed by [.read()] *)
Definition urlopen_read (url : string) : M string :=
  fun w =>
    match urlopen h url with
    | Some data => (Ret data, emit (UrlOpen url) w)
    | None => (Raise URLError, emit (UrlOpen url) w)
    end.

(** [os.makedirs(name)], [fuel] bounding the number of ancestors *)
Fixpoint makedirs (fuel : nat) (name : string) : M unit :=
  match fuel with
  | O => os_mkdir name
  | S fuel' =>
      let head := OsPath.dirname name in
      b <- os_path_exists head ;;
      when (negb (String.eqb head "") && negb (PyStr.endswith_char OsPath.sep name)
            && negb b)
           (makedirs fuel' head) ;;
      os_mkdir name
  end.

(** [ZipFile._extract_member]: member names are made relative and
    stripped of empty, [.] and [..] parts *)
Definition extract_member (dir : string) (member : string * string) : M unit :=
  let '(filename, data) := member in
  let parts :=
    List.filter (fun x => negb (PyStr.mem x [""; "."; ".."]))
                (PyStr.split OsPath.sep filename) in
  let arcname := PyStr.join "/" parts in
  let targetpath := OsPath.normpath (OsPath.join dir [arcname]) in
  let upperdirs := OsPath.dirname targetpath in
  b <- os_path_exists upperdirs ;;
  when (negb (String.eqb upperdirs "") && negb b)
       (makedirs (String.length upperdirs) upperdirs) ;;
  if PyStr.endswith_char OsPath.sep filename then
    fun w =>
      match fs w !! targetpath with
      | Some Dir => (Ret tt, w)
      | _ => os_mkdir targetpath w
      end
  else write_file targetpath data.

Fixpoint for_each {A} (l : list A) (body : A -> M unit) : M unit :=
  match l with
  | [] => ret tt
  | x :: l' => body x ;; for_each l' body
  end.

(** [with zipfile.ZipFile(path, 'r') as z: z.extractall(dir)] *)
Definition zip_extractall (path dir : string) : M unit :=
  data <- read_file path ;;
  match zip_members h data with
  | None => raise BadZipFile
  | Some members => for_each members (extract_member dir)
  end.

(** [re.match(pattern, string)]; [None] is Python's [None] *)
Definition re_match (pattern subject : string) : M (option string) :=
  match Re.match_ (re_engine h) pattern subject with
  | Re.Match g => ret (Some g)
  | Re.NoMatch => ret None
  | Re.Error => raise re_error
  end.

(** *** Download steamcmd and create necessary dirs *)

Definition setup : M unit :=
  (* Paths *)
  let dl_url := "https://steamcdn-a.akamaihd.net/client/installer/steamcmd.zip" in
  let dl_path := odin_path ["steamcmd.zip"] in
  let steamcmd_dir := odin_path ["steamcmd"] in
  let steamcmd_exe := odin_path ["steamcmd"; "steamcmd.exe"] in
  let worlds_dir := odin_path ["worlds"] in
  (* Silently make worlds dir *)
  b <- os_path_exists worlds_dir ;;
  when (negb b)
       (os_mkdir worlds_dir ;;
        nice ("Created directory: " +:+ worlds_dir)) ;;
  (* Exit if steamcmd dir already exists *)
  b <- os_path_exists steamcmd_dir ;;
  when b
       (damn ("Directory already exists: " +:+ steamcmd_dir) ;;
        exit 1) ;;
  (* Prep steamcmd dir *)
  os_mkdir steamcmd_dir ;;
  nice ("Created directory: " +:+ steamcmd_dir) ;;
  (* Download steamcmd.zip and extract *)
  dl <- urlopen_read dl_url ;;
  write_file dl_path dl ;;
  nice "Downloaded steamcmd" ;;
  zip_extractall dl_path steamcmd_dir ;;
  nice ("Extracted steamcmd to " +:+ steamcmd_dir) ;;
  (* Delete zip after extraction *)
  os_remove dl_path ;;
  nice ("Removed " +:+ dl_path).

(** *** Sanitary checks before running Odin *)

Definition valid_cmds : list string :=
  ["create"; "start"; "backup"; "update"; "help"].

(** lines 97-107 of [prerun]: the bootstrap step *)
Definition prerun_bootstrap : M unit :=
  let servers_dir := odin_path ["servers"] in
  let worlds_dir := odin_path ["worlds"] in
  let steamcmd_dir := odin_path ["steamcmd"] in
  b <- os_path_exists steamcmd_dir ;;
  when (negb b)
       (nice "No steamcmd detected. Running first-time setup.." ;;
        setup) ;;
  b <- os_path_exists worlds_dir ;;
  when (negb b)
       (os_mkdir worlds_dir ;;
        nice ("Created directory: " +:+ worlds_dir)) ;;
  b <- os_path_exists servers_dir ;;
  when (negb b)
       (os_mkdir servers_dir ;;
        nice ("Created directory: " +:+ servers_dir)).

(** lines 109-134 of [prerun]: the checks on the arguments *)
Definition prerun_args (args : list string) : M bool :=
  let arg_len := length args in
  match args with
  (* No args provided *)
  | [] => help ;; exit 0
  | args_0 :: _ =>
      (* Help command *)
      if String.eqb args_0 "help" then help ;; exit 0
      (* Err: exit on invalid command *)
      else if negb (PyStr.mem args_0 valid_cmds) then
        print (args_0 +:+ " is an invalid command") ;;
        help ;;
        ret false
      (* Err: insufficient args *)
      else if (arg_len <? 2)%nat then
        print ("Expecting at least 2 args but only received "
               +:+ pretty arg_len +:+ ".") ;;
        help ;;
        ret false
      (* Args are valid *)
      else ret true
  end.

Definition prerun (args : list string) : M bool :=
  prerun_bootstrap ;;
  prerun_args args.

(** *** Downloads valheim server files and creates a new server *)

Definition create (name : string) (update : bool) : M unit :=
  let server_dir := odin_path ["servers"; name] in
  let steamcmd_bin := odin_path ["steamcmd"; "steamcmd.exe"] in
  b <- os_path_exists server_dir ;;
  when (update && negb b)
       (damn ("Can't update server because it doesn't exist: " +:+ server_dir) ;;
        exit 1) ;;
  when (negb update)
       (b <- os_path_exists server_dir ;;
        if b then
          damn ("Directory already exists: " +:+ server_dir) ;;
          exit 1
        else
          os_mkdir server_dir ;;
          nice ("Created directory: " +:+ server_dir)) ;;
  (* Download server files through steamcmd *)
  let cmd :=
    [ steamcmd_bin; "+login"; "anonymous";
      "+force_install_dir"; server_dir;
      "+app_update"; "896660";
      "validate"; "+exit" ] in
  exit_code <- subprocess_check_call cmd ;;
  when (negb (exit_code =? 0))
       (damn "A problem occurred while downloading server files. Reverting.." ;;
        (* Delete the failed server directory *)
        try_except_OSError
          (shutil_rmtree server_dir)
          (fun e filename =>
             print ("Error: " +:+ filename +:+ " - " +:+ strerror e +:+ ".") ;;
             exit 1)) ;;
  nice "Server files downloaded".

(** *** Starts a server *)

(** the subject handed to [re.match] in [start] *)
Definition port_regex : string := "(?:-p|--port)\s(\d+)".

Definition start (args : list string) : M unit :=
  let args_len := length args in
  args_0 <- index args 0 ;;
  let server_dir := odin_path ["servers"; args_0] in
  let server_bin := odin_path ["servers"; args_0; "valheim_server.exe"] in
  let world_dir := odin_path ["worlds"; args_0] in
  let start_args : gmap string string := ∅ in
  b <- os_path_exists server_dir ;;
  when (negb b)
       (damn ("Server doesn't exist: " +:+ server_dir) ;;
        exit 1) ;;
  (* Too lazy to use argparse *)
  let start_args := <["name" := args_0]> start_args in
  let args_str := PyStr.join " " args in
  (* Extract port arg *)
  port <- re_match args_str port_regex ;;
  (* Use port provided, otherwise default to 2456 *)
  let start_args :=
    <["port" := match port with Some g => g | None => "2456" end]> start_args in
  name1 <- getitem start_args "name" ;;
  name2 <- getitem start_args "name" ;;
  port_s <- getitem start_args "port" ;;
  let spawn_cmd :=
    "cmd /C "
    +:+ "set SteamAppId=892970 && "
    +:+ server_bin +:+ " -nographics -batchmode "
    +:+ "-name " +:+ name1 +:+ " -world " +:+ name2 +:+ " "
    +:+ "-port " +:+ port_s +:+ " "
    +:+ "-password 123456 "
    +:+ "-savedir " +:+ server_dir in
  print "Tip: Press CTRL+C to save and quit server" ;;
  time_sleep 1 ;;
  subprocess_Popen spawn_cmd true.

(** *** Entry point; [args] is [sys.argv[1:]] *)

Definition main (args : list string) : M unit :=
  ok <- prerun args ;;
  when (negb ok) (exit 1) ;;
  cmd <- index args 0 ;;
  name <- index args 1 ;;
  if String.eqb cmd "create" then create name false
  else if String.eqb cmd "update" then create name true
  else if String.eqb cmd "start" then start (skipn 1 args)
  else if String.eqb cmd "backup" then print "Not implemented lol."
  else ret tt.

End Odin.



(** ** Vocabulary of the statements *)

Section Vocabulary.

Variable h : host.

(** the Server Directory of an instance *)
Definition server_dir (name : string) : string :=
  odin_path h ["servers"; name].

(** its server executable *)
Definition server_bin (name : string) : string :=
  odin_path h ["servers"; name; "valheim_server.exe"].

(** the installer invocation [create] builds *)
Definition installer_cmd (name : string) : list string :=
  [ odin_path h ["steamcmd"; "steamcmd.exe"]; "+login"; "anonymous";
    "+force_install_dir"; server_dir name;
    "+app_update"; "896660";
    "validate"; "+exit" ].

(** the command line [start] builds for a given port text *)
Definition spawn_cmd (name port : string) : string :=
  "cmd /C set SteamAppId=892970 && "
  +:+ server_bin name +:+ " -nographics -batchmode "
  +:+ "-name " +:+ name +:+ " -world " +:+ name +:+ " "
  +:+ "-port " +:+ port +:+ " -password 123456 "
  +:+ "-savedir " +:+ server_dir name.

(** the world in which a fresh [create] calls the installer *)
Definition after_mkdir (name : string) (w : world) : world :=
  emit (Print ("  ✔ Created directory: " +:+ server_dir name))
    (emit (Mkdir (server_dir name))
       (World (<[server_dir name := Dir]> (fs w)) (log w))).

(** installer tool, worlds and servers directories are all present *)
Definition bootstrapped (m : FS) : Prop :=
  exists_in m (odin_path h ["steamcmd"]) = true /\
  exists_in m (odin_path h ["worlds"]) = true /\
  exists_in m (odin_path h ["servers"]) = true.

(** the external installer never removes the entry [p] *)
Definition installer_keeps (p : string) : Prop :=
  forall cmd m m' rc,
    run_process h cmd m = Some (m', rc) ->
    exists_in m p = true -> exists_in m' p = true.

End Vocabulary.

(** an unknown command name, or fewer arguments than the command needs *)
Definition malformed (args : list string) : bool :=
  match args with
  | [] => true
  | c :: rest =>
      negb (PyStr.mem c valid_cmds)
      || (negb (String.eqb c "help") && (length args <? 2)%nat)
  end.

(** a text without any regular-expression operator *)
Fixpoint plain (s : string) : bool :=
  match s with
  | EmptyString => true
  | String c s' => negb (Re.special c) && plain s'
  end.

(** the line [start] prints before launching *)
Definition tip : string := "Tip: Press CTRL+C to save and quit server".

(** the events of the rollback branch of [create] *)
Definition rollback_event (e : event) : bool :=
  match e with
  | Rmtree _ => true
  | Print s =>
      String.eqb s "  ✖ A problem occurred while downloading server files. Reverting.."
  | _ => false
  end.

(** the events that start an external process *)
Definition process_event (e : event) : bool :=
  match e with
  | Run _ _ | Popen _ _ => true
  | _ => false
  end.

(** [p] is a directory *)
Definition is_dir (m : FS) (p : string) : Prop := m !! p = Some Dir.

(** a computation that never removes or replaces a directory, however
    it ends *)
Definition keeps_dirs {A} (c : M A) : Prop :=
  forall w d, is_dir (fs w) d -> is_dir (fs (snd (c w))) d.

(** a computation that never removes an entry, however it ends *)
Definition keeps_entries {A} (c : M A) : Prop :=
  forall w p, exists_in (fs w) p = true -> exists_in (fs (snd (c w))) p = true.

(** a computation all of whose events satisfy [P], however it ends *)
Definition emits {A} (P : event -> bool) (c : M A) : Prop :=
  forall w, exists evs,
    log (snd (c w)) = (log w ++ evs)%list /\ Forall (fun e => P e = true) evs.

(** the archive [setup] downloads *)
Definition steamcmd_url : string :=
  "https://steamcdn-a.akamaihd.net/client/installer/steamcmd.zip".

(** what the bootstrap step may do: anything but starting a process or
    removing a directory tree *)
Definition bootstrap_event (e : event) : bool :=
  match e with
  | Run _ _ | Popen _ _ | Rmtree _ => false
  | _ => true
  end.

(** local bookkeeping: a directory made, a line printed *)
Definition quiet_event (e : event) : bool :=
  match e with
  | Mkdir _ | Print _ => true
  | _ => false
  end.

(** the idiom [if not os.path.exists(d): os.mkdir(d); nice(...)] of
    [setup] and [prerun] *)
Definition ensure_dir (d : string) : M unit :=
  b <- os_path_exists d ;;
  when (negb b)
       (os_mkdir d ;;
        nice ("Created directory: " +:+ d)).

(** the commands [prerun] lets through to the dispatch *)
Definition dispatched_cmds : list string :=
  ["create"; "start"; "backup"; "update"].

(** *** More stub hosts *)

Module StubMore.


(** an installer that fails half-way on its first run, leaving a partial
    download, and completes on the next *)
Definition resuming_installer (cmd : list string) (m : FS) : option (FS * Z) :=
  match Stub.install_dir cmd with
  | Some d =>
      if exists_in m (d +:+ "/partial")
      then Some (<[d +:+ "/marker" := File "installed"]> m, 0)
      else Some (<[d +:+ "/partial" := File "half"]> m, 1)
  | None => Some (m, 1)
  end.


Definition resuming_host : host :=
  Host "/odin" "/home/op" Stub.offline Stub.no_zip resuming_installer Stub.no_engine.


End StubMore.

(** ** Properties *)

Section Properties.

Variable h : host.

(** unfold the monad and the effect-free primitives *)
Ltac run_odin :=
  unfold bind, when, ret, exit, raise, os_path_exists, nice, damn, print,
    time_sleep, subprocess_Popen;
  cbn -[odin_path exists_in parent_error insert lookup delete filter
       PyStr.join Re.match_].

(** case analysis on membership in a concrete trace *)
Ltac trace_cases Hin :=
  cbn in Hin;
  repeat (destruct Hin as [Hin | Hin]; [try discriminate Hin |]);
  try contradiction.

(** *** The installer call *)

Lemma check_call_zero (cmd : list string) (w w' : world) (rc : Z) :
  subprocess_check_call h cmd w = (Ret rc, w') -> rc = 0.
Proof.
  unfold subprocess_check_call, subprocess_call, bind.
  destruct (run_process h cmd (fs w)) as [[m' rc']|]; [|discriminate].
  destruct (rc' =? 0); cbn; unfold raise, ret; congruence.
Qed.

Lemma check_call_ok (cmd : list string) (w : world) (m' : FS) :
  run_process h cmd (fs w) = Some (m', 0) ->
  subprocess_check_call h cmd w = (Ret 0, emit (Run cmd 0) (World m' (log w))).
Proof.
  intros Hrun. unfold subprocess_check_call, subprocess_call, bind.
  rewrite Hrun. reflexivity.
Qed.

Lemma check_call_fails (cmd : list string) (w : world) (m' : FS) (rc : Z) :
  run_process h cmd (fs w) = Some (m', rc) -> rc <> 0 ->
  subprocess_check_call h cmd w =
    (Raise (CalledProcessError rc cmd), emit (Run cmd rc) (World m' (log w))).
Proof.
  intros Hrun Hrc. unfold subprocess_check_call, subprocess_call, bind.
  rewrite Hrun. apply Z.eqb_neq in Hrc. rewrite Hrc. reflexivity.
Qed.

Lemma check_call_not_launched (cmd : list string) (w : world) :
  run_process h cmd (fs w) = None ->
  subprocess_check_call h cmd w = (Raise (OSError ENOENT (hd "" cmd)), w).
Proof.
  intros Hrun. unfold subprocess_check_call, subprocess_call, bind.
  rewrite Hrun. reflexivity.
Qed.

(** *** Filesystem facts *)

Lemma exists_in_insert (m : FS) (p q : string) (n : node) :
  exists_in (<[p := n]> m) q = (String.eqb p q || exists_in m q)%bool.
Proof.
  unfold exists_in. destruct (String.eqb_spec p q) as [->|Hne].
  - by rewrite lookup_insert_eq.
  - by rewrite lookup_insert_ne.
Qed.

Lemma exists_in_insert_same (m : FS) (p : string) (n : node) :
  exists_in (<[p := n]> m) p = true.
Proof. by rewrite exists_in_insert, String.eqb_refl. Qed.

(** *** [create] and [update], case by case *)

Lemma create_conflict_run (name : string) (w : world) :
  exists_in (fs w) (server_dir h name) = true ->
  create h name false w =
    (Exit 1, emit (Print ("  ✖ Directory already exists: " +:+ server_dir h name)) w).
Proof.
  intros Hex. unfold create, server_dir in *. run_odin.
  rewrite Hex. reflexivity.
Qed.

Lemma create_mkdir_fails (name : string) (w : world) (e : exn) :
  exists_in (fs w) (server_dir h name) = false ->
  parent_error (fs w) (server_dir h name) = Some e ->
  create h name false w = (Raise e, w).
Proof.
  intros Hex Hpar. unfold create, server_dir in *. run_odin.
  rewrite Hex. run_odin.
  unfold os_mkdir. rewrite Hex, Hpar. reflexivity.
Qed.

Lemma create_fresh_run (name : string) (w : world) :
  exists_in (fs w) (server_dir h name) = false ->
  parent_error (fs w) (server_dir h name) = None ->
  create h name false w =
    match subprocess_check_call h (installer_cmd h name) (after_mkdir h name w) with
    | (Ret _, w') => (Ret tt, emit (Print "  ✔ Server files downloaded") w')
    | (Exit c, w') => (Exit c, w')
    | (Raise e, w') => (Raise e, w')
    end.
Proof.
  intros Hex Hpar.
  destruct (subprocess_check_call h (installer_cmd h name) (after_mkdir h name w))
    as [[rc|c0|e] w'] eqn:Hcall;
    unfold create, server_dir in *; run_odin; rewrite Hex; run_odin;
    unfold os_mkdir; rewrite Hex, Hpar; run_odin;
    change (subprocess_check_call h _ _)
      with (subprocess_check_call h (installer_cmd h name) (after_mkdir h name w));
    rewrite Hcall; try reflexivity.
  apply check_call_zero in Hcall. subst rc. reflexivity.
Qed.

Lemma update_run (name : string) (w : world) :
  exists_in (fs w) (server_dir h name) = true ->
  create h name true w =
    match subprocess_check_call h (installer_cmd h name) w with
    | (Ret _, w') => (Ret tt, emit (Print "  ✔ Server files downloaded") w')
    | (Exit c, w') => (Exit c, w')
    | (Raise e, w') => (Raise e, w')
    end.
Proof.
  intros Hex.
  destruct (subprocess_check_call h (installer_cmd h name) w)
    as [[rc|c0|e] w'] eqn:Hcall;
    unfold create, server_dir in *; run_odin; rewrite Hex; run_odin;
    change (subprocess_check_call h _ _)
      with (subprocess_check_call h (installer_cmd h name) w);
    rewrite Hcall; try reflexivity.
  apply check_call_zero in Hcall. subst rc. reflexivity.
Qed.

Lemma update_missing_run (name : string) (w : world) :
  exists_in (fs w) (server_dir h name) = false ->
  create h name true w =
    (Exit 1,
     emit (Print ("  ✖ Can't update server because it doesn't exist: "
                  +:+ server_dir h name)) w).
Proof.
  intros Hex. unfold create, server_dir in *. run_odin.
  rewrite Hex. reflexivity.
Qed.

Lemma create_succeeds_dir_exists (name : string) (w w1 : world) :
  installer_keeps h (server_dir h name) ->
  create h name false w = (Ret tt, w1) ->
  exists_in (fs w1) (server_dir h name) = true.
Proof.
  intros Hkeep Hrun.
  destruct (exists_in (fs w) (server_dir h name)) eqn:Hex.
  { rewrite create_conflict_run in Hrun by done. discriminate. }
  destruct (parent_error (fs w) (server_dir h name)) as [e|] eqn:Hpar.
  { rewrite (create_mkdir_fails _ _ e) in Hrun by done. discriminate. }
  rewrite create_fresh_run in Hrun by done.
  destruct (run_process h (installer_cmd h name) (fs (after_mkdir h name w)))
    as [[m' rc]|] eqn:Hproc.
  - destruct (Z.eq_dec rc 0) as [->|Hrc].
    + rewrite (check_call_ok _ _ m') in Hrun by done.
      injection Hrun as <-. cbn. eapply Hkeep; [exact Hproc|].
      cbn. apply exists_in_insert_same.
    + rewrite (check_call_fails _ _ m' rc) in Hrun by done. discriminate.
  - rewrite check_call_not_launched in Hrun by done. discriminate.
Qed.

(** C7.  [create] on a name whose Server Directory exists -- whether it
    was there all along, or is there because a first [create] of the
    same name has just succeeded (the installer not removing
    directories) -- exits with status 1 after printing the conflict
    message, and does nothing else: the filesystem is the same, and the
    trace gains that one printed line, so the installer is not run. *)
Theorem create_conflict (name : string) (w0 w : world) :
  exists_in (fs w) (server_dir h name) = true \/
  (installer_keeps h (server_dir h name) /\
   create h name false w0 = (Ret tt, w)) ->
  create h name false w =
    (Exit 1,
     World (fs w)
       (log w ++ [Print ("  ✖ Directory already exists: " +:+ server_dir h name)])).
Proof.
  intros [Hex | [Hkeep Hfirst]].
  - by apply create_conflict_run.
  - apply create_conflict_run. by eapply create_succeeds_dir_exists.
Qed.

(** C8.  [update] on a name whose Server Directory does not exist exits
    with status 1 after printing the missing-server message; the
    filesystem is unchanged (no directory is created) and nothing else
    happens. *)
Theorem update_missing (name : string) (w : world) :
  exists_in (fs w) (server_dir h name) = false ->
  create h name true w =
    (Exit 1,
     World (fs w)
       (log w ++ [Print ("  ✖ Can't update server because it doesn't exist: "
                         +:+ server_dir h name)])).
Proof. intros Hex. by apply update_missing_run. Qed.

(** C3.  [update] on an existing Server Directory, with an installer
    that exits with a nonzero status (and, like any installer, does not
    itself remove the directory): [update] ends with the uncaught
    [CalledProcessError], the filesystem is exactly the one the
    installer left, the only event is the installer run, and the Server
    Directory still exists. *)
Theorem update_failure_keeps_dir (name : string) (w : world) (m' : FS) (rc : Z) :
  exists_in (fs w) (server_dir h name) = true ->
  installer_keeps h (server_dir h name) ->
  run_process h (installer_cmd h name) (fs w) = Some (m', rc) ->
  rc <> 0 ->
  create h name true w =
    (Raise (CalledProcessError rc (installer_cmd h name)),
     World m' (log w ++ [Run (installer_cmd h name) rc])) /\
  exists_in (fs (snd (create h name true w))) (server_dir h name) = true.
Proof.
  intros Hex Hkeep Hproc Hrc.
  assert (Hrun : create h name true w =
    (Raise (CalledProcessError rc (installer_cmd h name)),
     World m' (log w ++ [Run (installer_cmd h name) rc]))).
  { rewrite update_run by done.
    by rewrite (check_call_fails _ _ m' rc). }
  split; [exact Hrun|]. rewrite Hrun. cbn. by eapply Hkeep.
Qed.

(** What a fresh [create] does when the installer fails: the directory
    it made is still there. *)
Lemma create_failure_keeps_partial_dir (name : string) (w : world) (m' : FS) (rc : Z) :
  exists_in (fs w) (server_dir h name) = false ->
  parent_error (fs w) (server_dir h name) = None ->
  installer_keeps h (server_dir h name) ->
  run_process h (installer_cmd h name) (<[server_dir h name := Dir]> (fs w))
    = Some (m', rc) ->
  rc <> 0 ->
  fst (create h name false w) = Raise (CalledProcessError rc (installer_cmd h name)) /\
  exists_in (fs (snd (create h name false w))) (server_dir h name) = true.
Proof.
  intros Hex Hpar Hkeep Hproc Hrc.
  rewrite create_fresh_run by done.
  rewrite (check_call_fails _ _ m' rc) by done. cbn. split; [done|].
  eapply Hkeep; [exact Hproc|]. apply exists_in_insert_same.
Qed.

(** C6.  [subprocess.check_call] returns only the value 0; hence, for
    every name, mode and starting world, the trace [create] adds holds
    no event of the rollback branch (neither its message nor
    [shutil.rmtree]); and whenever that trace shows the installer
    leaving with a nonzero status, [create] ends there with the
    uncaught [CalledProcessError], the installer run being its last
    event. *)
Theorem rollback_unreachable (name : string) (update : bool) (w : world) :
  (forall cmd w0 rc w1,
      subprocess_check_call h cmd w0 = (Ret rc, w1) -> rc = 0) /\
  exists evs,
    log (snd (create h name update w)) = (log w ++ evs)%list /\
    Forall (fun e => rollback_event e = false) evs /\
    forall cmd rc,
      In (Run cmd rc) evs -> rc <> 0 ->
      fst (create h name update w) = Raise (CalledProcessError rc cmd) /\
      last evs = Some (Run cmd rc).
Proof.
  split; [intros cmd w0 rc w1; apply check_call_zero|].
  destruct (exists_in (fs w) (server_dir h name)) eqn:Hex; destruct update.
  - (* update, directory present *)
    rewrite update_run by done.
    destruct (run_process h (installer_cmd h name) (fs w)) as [[m' rc]|] eqn:Hproc.
    + destruct (Z.eq_dec rc 0) as [->|Hrc].
      * rewrite (check_call_ok _ _ m') by done. eexists. cbn.
        rewrite <- !app_assoc. split; [reflexivity|].
        split; [repeat constructor|].
        intros cmd rc Hin Hne. trace_cases Hin. congruence.
      * rewrite (check_call_fails _ _ m' rc) by done. eexists. cbn.
        split; [reflexivity|]. split; [repeat constructor|].
        intros cmd rc' Hin Hne. trace_cases Hin.
        injection Hin as <- <-. done.
    + rewrite check_call_not_launched by done.
      exists []. rewrite app_nil_r. repeat split; [constructor|..];
        intros; contradiction.
  - (* create, directory present *)
    rewrite create_conflict_run by done. eexists. cbn.
    split; [reflexivity|]. split; [repeat constructor|].
    intros cmd rc Hin Hne. trace_cases Hin.
  - (* update, directory absent *)
    rewrite update_missing_run by done. eexists. cbn.
    split; [reflexivity|]. split; [repeat constructor|].
    intros cmd rc Hin Hne. trace_cases Hin.
  - (* create, directory absent *)
    destruct (parent_error (fs w) (server_dir h name)) as [e|] eqn:Hpar.
    { rewrite (create_mkdir_fails _ _ e) by done.
      exists []. rewrite app_nil_r. repeat split; [constructor|..];
        intros; contradiction. }
    rewrite create_fresh_run by done.
    destruct (run_process h (installer_cmd h name) (fs (after_mkdir h name w)))
      as [[m' rc]|] eqn:Hproc.
    + destruct (Z.eq_dec rc 0) as [->|Hrc].
      * rewrite (check_call_ok _ _ m') by done. eexists. cbn.
        rewrite <- !app_assoc. split; [reflexivity|].
        split; [repeat constructor|].
        intros cmd rc Hin Hne. trace_cases Hin. congruence.
      * rewrite (check_call_fails _ _ m' rc) by done. eexists. cbn.
        rewrite <- !app_assoc. split; [reflexivity|].
        split; [repeat constructor|].
        intros cmd rc' Hin Hne. trace_cases Hin.
        injection Hin as <- <-. done.
    + rewrite check_call_not_launched by done. eexists. cbn.
      rewrite <- !app_assoc. split; [reflexivity|].
      split; [repeat constructor|].
      intros cmd rc Hin Hne. trace_cases Hin.
Qed.

(** *** [start] *)

Lemma start_run (name : string) (rest : list string) (w : world) :
  exists_in (fs w) (server_dir h name) = true ->
  start h (name :: rest) w =
    match Re.match_ (re_engine h) (PyStr.join " " (name :: rest)) port_regex with
    | Re.Match g =>
        (Ret tt,
         World (fs w)
           (log w ++ [Print tip; Sleep 1; Popen (spawn_cmd h name g) true]))
    | Re.NoMatch =>
        (Ret tt,
         World (fs w)
           (log w ++ [Print tip; Sleep 1; Popen (spawn_cmd h name "2456") true]))
    | Re.Error => (Raise re_error, w)
    end.
Proof.
  intros Hex. unfold start, index, server_dir in *.
  cbn [nth_error]. run_odin. rewrite Hex. run_odin.
  unfold re_match.
  destruct (Re.match_ (re_engine h) (PyStr.join " " (name :: rest)) port_regex);
    run_odin; try reflexivity;
    unfold getitem;
    rewrite lookup_insert_ne, !lookup_insert_eq by done;
    run_odin; unfold emit; cbn [fs log]; rewrite <- !app_assoc; reflexivity.
Qed.

Lemma start_missing_run (name : string) (rest : list string) (w : world) :
  exists_in (fs w) (server_dir h name) = false ->
  start h (name :: rest) w =
    (Exit 1, emit (Print ("  ✖ Server doesn't exist: " +:+ server_dir h name)) w).
Proof.
  intros Hex. unfold start, index, server_dir in *.
  cbn [nth_error]. run_odin. rewrite Hex. reflexivity.
Qed.

(** *** Patterns without operators never match [port_regex] *)

Lemma special_dot (c : ascii) :
  Re.special c = false -> Ascii.eqb c "."%char = false.
Proof.
  unfold Re.special. cbn. intros Hs.
  apply orb_false_iff in Hs. tauto.
Qed.

Lemma special_paren (c : ascii) :
  Re.special c = false -> Ascii.eqb "("%char c = false.
Proof.
  intros Hs. destruct (Ascii.eqb_spec "("%char c) as [<-|]; [|done].
  discriminate Hs.
Qed.

Lemma parse_plain (s : string) :
  plain s = true ->
  exists l, Re.parse s = Some l /\
            match s with
            | EmptyString => l = []
            | String c _ => exists l', l = Re.Lit c :: l'
            end.
Proof.
  induction s as [|c s IH]; cbn [plain Re.parse]; intros Hp.
  - by exists [].
  - apply andb_true_iff in Hp as [Hc Hs]. apply negb_true_iff in Hc.
    destruct (IH Hs) as (l & -> & _).
    rewrite (special_dot c Hc), Hc. cbn. eauto.
Qed.

Lemma plain_no_match (s : string) :
  plain s = true -> s <> "" ->
  Re.match_ (re_engine h) s port_regex = Re.NoMatch.
Proof.
  intros Hp Hne. unfold Re.match_.
  destruct (parse_plain s Hp) as (l & -> & Hl).
  destruct s as [|c s]; [done|]. destruct Hl as [l' ->].
  cbn in Hp. apply andb_true_iff in Hp as [Hc _]. apply negb_true_iff in Hc.
  unfold port_regex. cbn [Re.match_atoms Re.atom_ok].
  by rewrite (special_paren c Hc).
Qed.

Lemma plain_app (a b : string) :
  plain (a +:+ b) = (plain a && plain b)%bool.
Proof.
  induction a as [|c a IH]; [done|].
  change (plain (String c a +:+ b))
    with (negb (Re.special c) && plain (a +:+ b))%bool.
  change (plain (String c a)) with (negb (Re.special c) && plain a)%bool.
  by rewrite IH, andb_assoc.
Qed.

Lemma plain_join (args : list string) :
  Forall (fun s => plain s = true) args ->
  plain (PyStr.join " " args) = true.
Proof.
  unfold PyStr.join.
  induction 1 as [|x xs Hx Hxs IH]; [done|].
  destruct xs as [|y ys]; [done|].
  change (String.concat " " (x :: y :: ys))
    with (x +:+ " " +:+ String.concat " " (y :: ys)).
  rewrite !plain_app, Hx, IH. reflexivity.
Qed.

Lemma join_nonempty (name : string) (rest : list string) :
  name <> "" -> PyStr.join " " (name :: rest) <> "".
Proof.
  unfold PyStr.join. intros Hne.
  destruct name as [|c n]; [done|]. destruct rest; cbn; discriminate.
Qed.

(** With a name and trailing arguments free of regular-expression
    operators, [start] always launches on port 2456 -- whatever the
    trailing arguments say. *)
Lemma start_plain_args (name : string) (rest : list string) (w : world) :
  name <> "" ->
  Forall (fun s => plain s = true) (name :: rest) ->
  exists_in (fs w) (server_dir h name) = true ->
  start h (name :: rest) w =
    (Ret tt,
     World (fs w)
       (log w ++ [Print tip; Sleep 1; Popen (spawn_cmd h name "2456") true])).
Proof.
  intros Hne Hplain Hex. rewrite start_run by done.
  rewrite plain_no_match; [done| |].
  - by apply plain_join.
  - by apply join_nonempty.
Qed.

(** C4 (amended).  [start] on a name whose Server Directory does not
    exist exits with status 1 after printing the missing-server
    message; nothing else happens, so no process is started.  (The
    server executable is never looked for.) *)
Theorem start_missing_server_dir (name : string) (rest : list string) (w : world) :
  exists_in (fs w) (server_dir h name) = false ->
  start h (name :: rest) w =
    (Exit 1,
     World (fs w)
       (log w ++ [Print ("  ✖ Server doesn't exist: " +:+ server_dir h name)])).
Proof. intros Hex. by apply start_missing_run. Qed.

(** *** Bootstrap and argument checks *)

Lemma bootstrap_noop_run (w : world) :
  bootstrapped h (fs w) -> prerun_bootstrap h w = (Ret tt, w).
Proof.
  intros (Hsteam & Hworlds & Hservers).
  unfold prerun_bootstrap. run_odin.
  rewrite Hsteam. run_odin. rewrite Hworlds. run_odin.
  rewrite Hservers. reflexivity.
Qed.

(** C10.  With the installer tool, worlds and servers directories all
    present, the bootstrap step returns normally and leaves the world
    as it found it: same filesystem, no event (no directory made, no
    download).  Running it twice in a row does the same. *)
Theorem bootstrap_noop (w : world) :
  bootstrapped h (fs w) ->
  prerun_bootstrap h w = (Ret tt, w) /\
  (prerun_bootstrap h ;; prerun_bootstrap h) w = (Ret tt, w).
Proof.
  intros Hb. pose proof (bootstrap_noop_run w Hb) as Hrun.
  split; [exact Hrun|]. unfold bind. rewrite Hrun. exact Hrun.
Qed.

(** C5 (amended).  On a bootstrapped install root, a malformed
    invocation (no arguments, an unknown command, or a known command
    without its argument) only prints -- the usage text last -- and
    exits: the filesystem is unchanged and the trace gains print events
    only, so no process is started. *)
Theorem malformed_invocation (args : list string) (w : world) :
  malformed args = true ->
  bootstrapped h (fs w) ->
  exists code msgs,
    main h args w = (Exit code, World (fs w) (log w ++ map Print msgs)) /\
    last msgs = Some (help_text).
Proof.
  intros Hbad Hb. unfold main, prerun, bind.
  rewrite (bootstrap_noop_run w Hb).
  destruct args as [|c rest].
  - exists 0, [help_text]. split; reflexivity.
  - unfold malformed in Hbad. unfold prerun_args.
    destruct (String.eqb c "help") eqn:Hhelp.
    { apply String.eqb_eq in Hhelp. subst c. discriminate Hbad. }
    destruct (PyStr.mem c valid_cmds) eqn:Hmem; cbn [negb orb andb] in *.
    + rewrite Hbad.
      exists 1, ["Expecting at least 2 args but only received "
                 +:+ pretty (length (c :: rest)) +:+ "."; help_text].
      split; [|reflexivity].
      unfold bind, when, help, print, ret, exit, emit. cbn [negb fs log map].
      by rewrite <- !app_assoc.
    + exists 1, [c +:+ " is an invalid command"; help_text].
      split; [|reflexivity].
      unfold bind, when, help, print, ret, exit, emit. cbn [negb fs log map].
      by rewrite <- !app_assoc.
Qed.

End Properties.

(** ** Runs on the stub hosts *)

(** *** The failing installer *)

(** C1.  [create foo] on a bootstrapped root where [servers/foo] does not
    exist, with an installer that exits with status 1: [create] ends with
    the uncaught [CalledProcessError], no [rmtree] appears in its trace,
    and [servers/foo] -- the directory it made -- still exists. *)
Theorem create_failure_no_rollback :
  let w := World Stub.ready_fs [] in
  let r := create Stub.failing_host "foo" false w in
  server_dir Stub.failing_host "foo" = "/odin/servers/foo" /\
  exists_in (fs w) "/odin/servers/foo" = false /\
  run_process Stub.failing_host (installer_cmd Stub.failing_host "foo")
    (<["/odin/servers/foo" := Dir]> (fs w))
    = Some (<["/odin/servers/foo" := Dir]> (fs w), 1) /\
  fst r = Raise (CalledProcessError 1 (installer_cmd Stub.failing_host "foo")) /\
  log (snd r) =
    [ Mkdir "/odin/servers/foo";
      Print "  ✔ Created directory: /odin/servers/foo";
      Run (installer_cmd Stub.failing_host "foo") 1 ] /\
  exists_in (fs (snd r)) "/odin/servers/foo" = true.
Proof. cbv zeta. repeat apply conj; vm_compute; reflexivity. Qed.

(** [update foo] on the provisioned instance [foo], installer exiting 1. *)
Lemma update_failure_keeps_dir_witness :
  create Stub.failing_host "foo" true (World Stub.foo_fs []) =
    (Raise (CalledProcessError 1 (installer_cmd Stub.failing_host "foo")),
     World Stub.foo_fs [Run (installer_cmd Stub.failing_host "foo") 1]) /\
  exists_in
    (fs (snd (create Stub.failing_host "foo" true (World Stub.foo_fs []))))
    (server_dir Stub.failing_host "foo") = true.
Proof.
  apply (update_failure_keeps_dir Stub.failing_host "foo"
           (World Stub.foo_fs []) Stub.foo_fs 1).
  - vm_compute. reflexivity.
  - intros cmd m m' rc Hrun Hex. injection Hrun as <- _. exact Hex.
  - reflexivity.
  - lia.
Defined.

(** [create foo] with the installer exiting 1 ends with the exception. *)
Lemma rollback_unreachable_witness :
  fst (create Stub.failing_host "foo" false (World Stub.ready_fs [])) =
    Raise (CalledProcessError 1 (installer_cmd Stub.failing_host "foo")).
Proof.
  destruct (rollback_unreachable Stub.failing_host "foo" false
              (World Stub.ready_fs []))
    as (_ & evs & Hlog & _ & Hrun).
  apply (Hrun (installer_cmd Stub.failing_host "foo") 1); [|lia].
  cbn [log app] in Hlog. rewrite <- Hlog. vm_compute. tauto.
Defined.

(** *** The succeeding installer *)

(** [create foo] when [servers/foo] is there, and twice in a row. *)
Lemma create_conflict_witness :
  let msg := Print "  ✖ Directory already exists: /odin/servers/foo" in
  let w1 := snd (create Stub.marker_host "foo" false (World Stub.ready_fs [])) in
  create Stub.marker_host "foo" false (World Stub.foo_fs []) =
    (Exit 1, World Stub.foo_fs [msg]) /\
  create Stub.marker_host "foo" false w1 =
    (Exit 1, World (fs w1) (log w1 ++ [msg])).
Proof.
  split.
  - apply (create_conflict Stub.marker_host "foo"
             (World Stub.foo_fs []) (World Stub.foo_fs [])).
    left. vm_compute. reflexivity.
  - apply (create_conflict Stub.marker_host "foo" (World Stub.ready_fs [])).
    right. split.
    + intros cmd m m' rc Hrun Hex. cbn in Hrun. unfold Stub.marker_installer in Hrun.
      destruct (Stub.install_dir cmd); injection Hrun as <- _; [|exact Hex].
      rewrite exists_in_insert, Hex. apply orb_true_r.
    + vm_compute. reflexivity.
Defined.

(** [update foo] when [servers/foo] is not there. *)
Lemma update_missing_witness :
  create Stub.marker_host "foo" true (World Stub.ready_fs []) =
    (Exit 1,
     World Stub.ready_fs
       [Print "  ✖ Can't update server because it doesn't exist: /odin/servers/foo"]).
Proof.
  apply (update_missing Stub.marker_host "foo" (World Stub.ready_fs [])).
  vm_compute. reflexivity.
Defined.

(** *** Launching *)

(** [start foo -p 4455] when [servers/foo] is not there. *)
Lemma start_missing_server_dir_witness :
  start Stub.marker_host ["foo"; "-p"; "4455"] (World Stub.ready_fs []) =
    (Exit 1,
     World Stub.ready_fs [Print "  ✖ Server doesn't exist: /odin/servers/foo"]).
Proof.
  apply (start_missing_server_dir Stub.marker_host "foo" ["-p"; "4455"]
           (World Stub.ready_fs [])).
  vm_compute. reflexivity.
Defined.

(** [start foo] when [servers/foo] is an empty directory. *)
Lemma start_empty_dir_run :
  start Stub.marker_host ["foo"] (World Stub.empty_foo_fs []) =
    (Ret tt,
     World Stub.empty_foo_fs
       [Print tip; Sleep 1; Popen (spawn_cmd Stub.marker_host "foo" "2456") true]).
Proof. vm_compute. reflexivity. Qed.

(** C4, as stated, fails: [servers/foo] exists but holds no
    [valheim_server.exe]; [start foo] does not exit -- it returns after
    launching the command line. *)
Lemma start_without_executable :
  ~ ((exists_in Stub.empty_foo_fs (server_dir Stub.marker_host "foo")
      && exists_in Stub.empty_foo_fs (server_bin Stub.marker_host "foo"))%bool = false ->
     exists code w',
       code <> 0 /\
       start Stub.marker_host ["foo"] (World Stub.empty_foo_fs []) = (Exit code, w') /\
       Forall (fun e => process_event e = false) (log w')).
Proof.
  intros Hclaim.
  destruct Hclaim as (code & w' & _ & Hrun & _); [vm_compute; reflexivity|].
  rewrite start_empty_dir_run in Hrun. discriminate Hrun.
Qed.

(** C2.  [start foo -p 4455] and [start foo --port 4455] on the
    provisioned instance [foo]: the command line launched carries
    [-port 2456]; [4455] appears nowhere in it. *)
Theorem port_flag_ignored :
  let launched :=
    (Ret tt,
     World Stub.foo_fs
       [Print tip; Sleep 1; Popen (spawn_cmd Stub.marker_host "foo" "2456") true]) in
  start Stub.marker_host ["foo"; "-p"; "4455"] (World Stub.foo_fs []) = launched /\
  start Stub.marker_host ["foo"; "--port"; "4455"] (World Stub.foo_fs []) = launched /\
  PyStr.contains "-port 2456" (spawn_cmd Stub.marker_host "foo" "2456") = true /\
  PyStr.contains "4455" (spawn_cmd Stub.marker_host "foo" "2456") = false.
Proof. cbv zeta. repeat apply conj; vm_compute; reflexivity. Qed.

(** C9.  [start ....p] on the provisioned instance [....p], no port flag:
    the name, used as the pattern, matches the first five characters of
    [port_regex], and the command line launched carries [-port (?:-p]
    instead of [-port 2456]. *)
Theorem start_dotted_name_port :
  let h := Stub.marker_host in
  let cmd := spawn_cmd h "....p" "(?:-p" in
  exists_in Stub.dots_fs (server_dir h "....p") = true /\
  exists_in Stub.dots_fs (server_bin h "....p") = true /\
  start h ["....p"] (World Stub.dots_fs []) =
    (Ret tt, World Stub.dots_fs [Print tip; Sleep 1; Popen cmd true]) /\
  PyStr.contains "-name ....p -world ....p -port (?:-p -password 123456" cmd = true /\
  PyStr.contains "-name ....p -world ....p -port 2456 -password 123456" cmd = false.
Proof. cbv zeta. repeat apply conj; vm_compute; reflexivity. Qed.

(** The end-to-end scenario: fresh install root, [create foo] with the
    marker-writing installer, then [start foo]. *)
Example end_to_end_foo :
  let h := Stub.online_host in
  let w1 := snd (main h ["create"; "foo"] (World Stub.fresh_fs [])) in
  let cmd := spawn_cmd h "foo" "2456" in
  fst (main h ["create"; "foo"] (World Stub.fresh_fs [])) = Ret tt /\
  fs w1 !! "/odin/servers/foo" = Some Dir /\
  fs w1 !! "/odin/servers/foo/marker" = Some (File "installed") /\
  main h ["start"; "foo"] (World (fs w1) []) =
    (Ret tt, World (fs w1) [Print tip; Sleep 1; Popen cmd true]) /\
  PyStr.contains "-name foo -world foo -port 2456 -password 123456" cmd = true /\
  PyStr.contains "-savedir /odin/servers/foo" cmd = true.
Proof. cbv zeta. repeat apply conj; vm_compute; reflexivity. Qed.

(** *** Bootstrap *)

(** The bootstrap step on a complete install root. *)
Lemma bootstrap_noop_witness :
  prerun_bootstrap Stub.online_host (World Stub.ready_fs []) =
    (Ret tt, World Stub.ready_fs []) /\
  (prerun_bootstrap Stub.online_host ;; prerun_bootstrap Stub.online_host)
    (World Stub.ready_fs []) = (Ret tt, World Stub.ready_fs []).
Proof.
  apply (bootstrap_noop Stub.online_host (World Stub.ready_fs [])).
  repeat split; vm_compute; reflexivity.
Defined.

(** [bogus foo] on a complete install root. *)
Lemma malformed_invocation_witness :
  exists code msgs,
    main Stub.online_host ["bogus"; "foo"] (World Stub.ready_fs []) =
      (Exit code, World Stub.ready_fs (map Print msgs)) /\
    last msgs = Some help_text.
Proof.
  apply (malformed_invocation Stub.online_host ["bogus"; "foo"]
           (World Stub.ready_fs [])).
  - reflexivity.
  - repeat split; vm_compute; reflexivity.
Defined.

(** C5, as stated, fails: on a fresh install root the unknown command
    [bogus] is only rejected after the bootstrap step has run -- the
    worlds directory, among others, has been created. *)
Lemma malformed_invocation_bootstraps :
  ~ (malformed ["bogus"] = true ->
     let r := main Stub.online_host ["bogus"] (World Stub.fresh_fs []) in
     (exists code, fst r = Exit code) /\
     fs (snd r) = Stub.fresh_fs /\
     Forall (fun e => process_event e = false) (log (snd r))).
Proof.
  intros Hclaim. destruct (Hclaim eq_refl) as (_ & Hfs & _).
  apply (f_equal (fun m => exists_in m "/odin/worlds")) in Hfs.
  vm_compute in Hfs. discriminate Hfs.
Qed.

(** ** Further properties of the script *)

Section Further.

Variable h : host.

(** one step of symbolic execution *)
Ltac step_odin :=
  unfold bind, when, ret, exit, raise, os_path_exists, print;
  cbn -[odin_path exists_in parent_error insert lookup delete filter
       PyStr.join Re.match_].

(** *** Inversion of the monad *)

Lemma bind_ret_inv {A B} (m : M A) (f : A -> M B) (w w' : world) (b : B) :
  bind m f w = (Ret b, w') ->
  exists a w1, m w = (Ret a, w1) /\ f a w1 = (Ret b, w').
Proof.
  unfold bind. destruct (m w) as [[a|c|e] w1]; intros Hrun; try discriminate.
  by exists a, w1.
Qed.

(** *** Path resolver *)







(** *** Dispatcher *)

Lemma mem_dispatched (c : string) :
  String.eqb c "help" = false ->
  PyStr.mem c valid_cmds = PyStr.mem c dispatched_cmds.
Proof.
  intros Hhelp. unfold PyStr.mem, valid_cmds, dispatched_cmds.
  cbn [existsb]. rewrite Hhelp. by rewrite !orb_false_r.
Qed.

Lemma mem_dispatched_not_help (c : string) :
  PyStr.mem c dispatched_cmds = true -> String.eqb c "help" = false.
Proof.
  unfold PyStr.mem, dispatched_cmds. cbn [existsb]. rewrite orb_false_r.
  intros Hm. destruct (String.eqb_spec c "help") as [->|]; [|done].
  discriminate Hm.
Qed.

Lemma prerun_args_true_shape (args : list string) (w w' : world) :
  prerun_args args w = (Ret true, w') ->
  w' = w /\
  exists cmd name rest,
    args = cmd :: name :: rest /\ PyStr.mem cmd dispatched_cmds = true.
Proof.
  destruct args as [|c rest]; [discriminate|].
  unfold prerun_args.
  destruct (String.eqb c "help") eqn:Hhelp; [discriminate|].
  rewrite (mem_dispatched c Hhelp).
  destruct (PyStr.mem c dispatched_cmds) eqn:Hmem; [|discriminate].
  destruct rest as [|name rest]; [discriminate|].
  cbn. intros [= <-]. split; [done|]. by exists c, name, rest.
Qed.

(** X3.  The argument check lets an invocation through exactly when it
    has a command among create, start, backup, update and at least one
    more argument; it then leaves the world untouched (nothing is even
    printed). *)
Theorem prerun_args_true (args : list string) (w w' : world) :
  prerun_args args w = (Ret true, w') <->
  w' = w /\
  exists cmd name rest,
    args = cmd :: name :: rest /\ PyStr.mem cmd dispatched_cmds = true.
Proof.
  split; [apply prerun_args_true_shape|].
  intros (-> & cmd & name & rest & -> & Hmem).
  unfold prerun_args.
  rewrite (mem_dispatched_not_help cmd Hmem).
  rewrite (mem_dispatched cmd (mem_dispatched_not_help cmd Hmem)), Hmem.
  reflexivity.
Qed.

(** X4.  [prerun] -- bootstrap included -- never answers [True] to
    fewer than two arguments or to a command outside create, start,
    backup, update: the [args[0]] and [args[1]] of [main] are always
    there. *)
Theorem prerun_true_args (args : list string) (w w' : world) :
  prerun h args w = (Ret true, w') ->
  exists cmd name rest,
    args = cmd :: name :: rest /\ PyStr.mem cmd dispatched_cmds = true.
Proof.
  unfold prerun. intros Hrun.
  apply bind_ret_inv in Hrun as ([] & w1 & _ & Hargs).
  by apply prerun_args_true_shape in Hargs as [_ Hshape].
Qed.

(** X5.  When the bootstrap step does not return normally -- it raised,
    or exited -- [main] ends the same way in the same world, whatever
    the arguments: not even [help] is answered. *)
Theorem main_bootstrap_failure (args : list string) (w w1 : world) :
  (forall e, prerun_bootstrap h w = (Raise e, w1) ->
             main h args w = (Raise e, w1)) /\
  (forall c, prerun_bootstrap h w = (Exit c, w1) ->
             main h args w = (Exit c, w1)).
Proof.
  split; intros x Hboot; unfold main, prerun, bind; by rewrite Hboot.
Qed.

(** X6.  Once the bootstrap step has returned, [help] -- alone or
    followed by anything -- and the empty invocation print the usage
    text and exit with status 0. *)
Theorem main_help (rest : list string) (w w1 : world) :
  prerun_bootstrap h w = (Ret tt, w1) ->
  main h ("help" :: rest) w = (Exit 0, World (fs w1) (log w1 ++ [Print help_text])) /\
  main h [] w = (Exit 0, World (fs w1) (log w1 ++ [Print help_text])).
Proof.
  intros Hboot. unfold main, prerun, bind. rewrite Hboot. by split.
Qed.

(** X7.  Once the bootstrap step has returned, [create name ...] is
    [create(name)], [update name ...] is [create(name, update=True)],
    [start name ...] is [start] on the name and what follows it, each in
    the world the bootstrap left; [backup name ...] only prints its
    notice and returns. *)
Theorem main_dispatch (name : string) (rest : list string) (w w1 : world) :
  prerun_bootstrap h w = (Ret tt, w1) ->
  main h ("create" :: name :: rest) w = create h name false w1 /\
  main h ("update" :: name :: rest) w = create h name true w1 /\
  main h ("start" :: name :: rest) w = start h (name :: rest) w1 /\
  main h ("backup" :: name :: rest) w =
    (Ret tt, World (fs w1) (log w1 ++ [Print "Not implemented lol."])).
Proof.
  intros Hboot. unfold main, prerun, bind. rewrite Hboot. by repeat split.
Qed.

(** X8.  Arguments after the name are ignored by every command but
    [start]: the invocation behaves as the one cut after the name. *)
Theorem main_extra_args_ignored (cmd name : string) (rest : list string) (w : world) :
  cmd <> "start" ->
  main h (cmd :: name :: rest) w = main h [cmd; name] w.
Proof.
  intros Hcmd. apply String.eqb_neq in Hcmd.
  unfold main, prerun, bind.
  destruct (prerun_bootstrap h w) as [[[]|c|e] w1]; try reflexivity.
  unfold prerun_args.
  destruct (String.eqb cmd "help"); [reflexivity|].
  destruct (PyStr.mem cmd valid_cmds); [|reflexivity].
  cbn. rewrite Hcmd. reflexivity.
Qed.


(** *** Provisioning *)

(** X9.  A fresh [create] whose installer exits with status 0 returns
    normally: the installer ran once, with the fixed argument template,
    on the filesystem extended by the new, empty Server Directory; the
    filesystem afterwards is the one the installer left. *)
Theorem create_success (name : string) (w : world) (m' : FS) :
  exists_in (fs w) (server_dir h name) = false ->
  parent_error (fs w) (server_dir h name) = None ->
  run_process h (installer_cmd h name) (<[server_dir h name := Dir]> (fs w))
    = Some (m', 0) ->
  create h name false w =
    (Ret tt,
     World m'
       (log w ++ [ Mkdir (server_dir h name);
                   Print ("  ✔ Created directory: " +:+ server_dir h name);
                   Run (installer_cmd h name) 0;
                   Print "  ✔ Server files downloaded" ])).
Proof.
  intros Hex Hpar Hproc. rewrite create_fresh_run by done.
  rewrite (check_call_ok _ _ _ m') by done.
  unfold after_mkdir, emit. cbn [fs log]. by rewrite <- !app_assoc.
Qed.

(** X10.  [update] on an existing Server Directory whose installer exits
    with status 0 returns normally: the installer ran once on the
    filesystem as it was -- no directory is made -- and the filesystem
    afterwards is the one the installer left. *)
Theorem update_success (name : string) (w : world) (m' : FS) :
  exists_in (fs w) (server_dir h name) = true ->
  run_process h (installer_cmd h name) (fs w) = Some (m', 0) ->
  create h name true w =
    (Ret tt,
     World m'
       (log w ++ [ Run (installer_cmd h name) 0;
                   Print "  ✔ Server files downloaded" ])).
Proof.
  intros Hex Hproc. rewrite update_run by done.
  rewrite (check_call_ok _ _ _ m') by done.
  unfold emit. cbn [fs log]. by rewrite <- !app_assoc.
Qed.

(** X11.  [create] on a name whose parent directory is not a directory
    (a name such as [a/b], [servers/a] missing) raises the [OSError] of
    [os.mkdir]; the world is unchanged and the installer is not run. *)
Theorem create_parent_missing (name : string) (w : world) :
  exists_in (fs w) (server_dir h name) = false ->
  fs w !! OsPath.dirname (server_dir h name) <> Some Dir ->
  exists e,
    (e = ENOENT \/ e = ENOTDIR) /\
    create h name false w = (Raise (OSError e (server_dir h name)), w).
Proof.
  intros Hex Hpar.
  destruct (fs w !! OsPath.dirname (server_dir h name)) as [[|data]|] eqn:Hlook;
    [done| |].
  - exists ENOTDIR. split; [by right|].
    apply create_mkdir_fails; [done|]. unfold parent_error. by rewrite Hlook.
  - exists ENOENT. split; [by left|].
    apply create_mkdir_fails; [done|]. unfold parent_error. by rewrite Hlook.
Qed.

Lemma parent_error_OSError (m : FS) (p : string) (e : exn) :
  parent_error m p = Some e -> exists k, e = OSError k p.
Proof.
  unfold parent_error. destruct (m !! OsPath.dirname p) as [[|data]|];
    intros [= <-]; eauto.
Qed.

(** a fresh [create] that raises after making its directory leaves it *)
Lemma create_raise_leaves_dir (name : string) (w w1 : world) (e : exn) :
  exists_in (fs w) (server_dir h name) = false ->
  parent_error (fs w) (server_dir h name) = None ->
  installer_keeps h (server_dir h name) ->
  create h name false w = (Raise e, w1) ->
  exists_in (fs w1) (server_dir h name) = true.
Proof.
  intros Hex Hpar Hkeep Hrun. rewrite create_fresh_run in Hrun by done.
  destruct (run_process h (installer_cmd h name) (fs (after_mkdir h name w)))
    as [[m' rc]|] eqn:Hproc.
  - destruct (Z.eq_dec rc 0) as [->|Hrc].
    + rewrite (check_call_ok _ _ _ m') in Hrun by done. discriminate.
    + rewrite (check_call_fails _ _ _ m' rc) in Hrun by done.
      injection Hrun as _ <-. cbn. eapply Hkeep; [exact Hproc|].
      cbn. apply exists_in_insert_same.
  - rewrite check_call_not_launched in Hrun by done.
    injection Hrun as _ <-. cbn. apply exists_in_insert_same.
Qed.


(** X13.  After a fresh [create] that raised (installer failed, or
    could not be launched), a second [create] of the same name does not
    retry: it exits with status 1 on the directory the first one left,
    changing nothing. *)
Theorem create_retry_conflicts (name : string) (w w1 : world) (e : exn) :
  exists_in (fs w) (server_dir h name) = false ->
  parent_error (fs w) (server_dir h name) = None ->
  installer_keeps h (server_dir h name) ->
  create h name false w = (Raise e, w1) ->
  create h name false w1 =
    (Exit 1,
     World (fs w1)
       (log w1 ++ [Print ("  ✖ Directory already exists: " +:+ server_dir h name)])).
Proof.
  intros Hex Hpar Hkeep Hrun. apply create_conflict_run.
  by eapply create_raise_leaves_dir.
Qed.

(** X14.  After a fresh [create] that raised, [update] of the same name
    is accepted -- the left-over directory satisfies its precondition --
    and, the installer now exiting with status 0, completes the
    installation. *)
Theorem update_after_failed_create (name : string) (w w1 : world) (e : exn) (m2 : FS) :
  exists_in (fs w) (server_dir h name) = false ->
  parent_error (fs w) (server_dir h name) = None ->
  installer_keeps h (server_dir h name) ->
  create h name false w = (Raise e, w1) ->
  run_process h (installer_cmd h name) (fs w1) = Some (m2, 0) ->
  create h name true w1 =
    (Ret tt,
     World m2
       (log w1 ++ [ Run (installer_cmd h name) 0;
                    Print "  ✔ Server files downloaded" ])).
Proof.
  intros Hex Hpar Hkeep Hrun Hproc.
  rewrite update_run by (by eapply create_raise_leaves_dir).
  rewrite (check_call_ok _ _ _ m2) by done.
  unfold emit. cbn [fs log]. by rewrite <- !app_assoc.
Qed.

(** *** Launching *)

(** X15.  [start] never touches the filesystem, however it ends. *)
Theorem start_keeps_filesystem (args : list string) (w : world) :
  fs (snd (start h args w)) = fs w.
Proof.
  destruct args as [|name rest]; [reflexivity|].
  destruct (exists_in (fs w) (server_dir h name)) eqn:Hex.
  - rewrite start_run by done.
    by destruct (Re.match_ _ _ _).
  - by rewrite start_missing_run.
Qed.

(** X16.  [start] launches a process exactly when it returns normally,
    and then exactly one, detached; whatever port text was derived, the
    command line carries the instance name as both [-name] and [-world]
    and the Server Directory as [-savedir].  When it does not return
    normally no process is started. *)
Theorem start_trace (name : string) (rest : list string) (w : world) :
  (exists port,
      start h (name :: rest) w =
        (Ret tt,
         World (fs w)
           (log w ++ [Print tip; Sleep 1; Popen (spawn_cmd h name port) true]))) \/
  (fst (start h (name :: rest) w) <> Ret tt /\
   exists evs,
     log (snd (start h (name :: rest) w)) = (log w ++ evs)%list /\
     Forall (fun e => process_event e = false) evs).
Proof.
  destruct (exists_in (fs w) (server_dir h name)) eqn:Hex.
  - rewrite start_run by done.
    destruct (Re.match_ _ _ _) as [g| |].
    + left. by exists g.
    + left. by exists "2456".
    + right. split; [done|]. exists []. by rewrite app_nil_r.
  - rewrite start_missing_run by done. right. split; [done|].
    eexists. split; [reflexivity|]. by repeat constructor.
Qed.


(** *** What the bootstrap keeps *)

Lemma is_dir_insert (m : FS) (p d : string) (n : node) :
  is_dir m d -> (m !! p = Some Dir -> n = Dir) -> is_dir (<[p := n]> m) d.
Proof.
  unfold is_dir. intros Hd Hn. destruct (decide (p = d)) as [->|Hne].
  - rewrite lookup_insert_eq. f_equal. by apply Hn.
  - by rewrite lookup_insert_ne.
Qed.

Lemma keeps_dirs_ret {A} (a : A) : keeps_dirs (ret a).
Proof. by intros w d Hd. Qed.

Lemma keeps_dirs_exit {A} (c : Z) : keeps_dirs (@exit A c).
Proof. by intros w d Hd. Qed.

Lemma keeps_dirs_raise {A} (e : exn) : keeps_dirs (@raise A e).
Proof. by intros w d Hd. Qed.

Lemma keeps_dirs_bind {A B} (m : M A) (f : A -> M B) :
  keeps_dirs m -> (forall a, keeps_dirs (f a)) -> keeps_dirs (bind m f).
Proof.
  intros Hm Hf w d Hd. unfold bind. specialize (Hm w d Hd).
  destruct (m w) as [[a|c|e] w1]; cbn in *; [by apply Hf|done|done].
Qed.

Lemma keeps_dirs_when (b : bool) (m : M unit) :
  keeps_dirs m -> keeps_dirs (when b m).
Proof. destruct b; [done|]. intros _. apply keeps_dirs_ret. Qed.

Lemma keeps_dirs_print (s : string) : keeps_dirs (print s).
Proof. by intros w d Hd. Qed.

Lemma keeps_dirs_exists (p : string) : keeps_dirs (os_path_exists p).
Proof. by intros w d Hd. Qed.

Lemma keeps_dirs_mkdir (p : string) : keeps_dirs (os_mkdir p).
Proof.
  intros w d Hd. unfold os_mkdir.
  destruct (exists_in (fs w) p); [done|].
  destruct (parent_error (fs w) p); [done|].
  cbn. by apply is_dir_insert.
Qed.

Lemma keeps_dirs_write_file (p data : string) : keeps_dirs (write_file p data).
Proof.
  intros w d Hd. unfold write_file.
  destruct (fs w !! p) as [[|old]|] eqn:Hp; [done| |].
  - cbn. apply is_dir_insert; [done|]. by rewrite Hp.
  - destruct (parent_error (fs w) p); [done|].
    cbn. apply is_dir_insert; [done|]. by rewrite Hp.
Qed.

Lemma keeps_dirs_read_file (p : string) : keeps_dirs (read_file p).
Proof.
  intros w d Hd. unfold read_file. by destruct (fs w !! p) as [[|old]|].
Qed.

Lemma keeps_dirs_remove (p : string) : keeps_dirs (os_remove p).
Proof.
  intros w d Hd. unfold os_remove.
  destruct (fs w !! p) as [[|old]|] eqn:Hp; [done| |done].
  cbn. unfold is_dir in *. rewrite lookup_delete_ne; [done|].
  intros ->. congruence.
Qed.

Lemma keeps_dirs_urlopen (url : string) : keeps_dirs (urlopen_read h url).
Proof.
  intros w d Hd. unfold urlopen_read. by destruct (urlopen h url).
Qed.

Lemma keeps_dirs_makedirs (fuel : nat) (name : string) :
  keeps_dirs (makedirs fuel name).
Proof.
  revert name. induction fuel as [|fuel IH]; intros name; cbn [makedirs].
  - apply keeps_dirs_mkdir.
  - apply keeps_dirs_bind; [apply keeps_dirs_exists|]. intros b.
    apply keeps_dirs_bind; [|intros _; apply keeps_dirs_mkdir].
    apply keeps_dirs_when, IH.
Qed.

Lemma keeps_dirs_extract_member (dir : string) (member : string * string) :
  keeps_dirs (extract_member dir member).
Proof.
  destruct member as [filename data]. unfold extract_member.
  apply keeps_dirs_bind; [apply keeps_dirs_exists|]. intros b.
  apply keeps_dirs_bind; [apply keeps_dirs_when, keeps_dirs_makedirs|]. intros _.
  destruct (PyStr.endswith_char OsPath.sep filename);
    [|apply keeps_dirs_write_file].
  intros w d Hd.
  destruct (fs w !! _) as [[|old]|]; [done|by apply keeps_dirs_mkdir..].
Qed.

Lemma keeps_dirs_for_each {A} (l : list A) (body : A -> M unit) :
  (forall x, keeps_dirs (body x)) -> keeps_dirs (for_each l body).
Proof.
  intros Hbody. induction l as [|x l IH]; cbn [for_each].
  - apply keeps_dirs_ret.
  - apply keeps_dirs_bind; [apply Hbody|]. intros _. exact IH.
Qed.

Lemma keeps_dirs_extractall (path dir : string) :
  keeps_dirs (zip_extractall h path dir).
Proof.
  unfold zip_extractall.
  apply keeps_dirs_bind; [apply keeps_dirs_read_file|]. intros data.
  destruct (zip_members h data); [|apply keeps_dirs_raise].
  apply keeps_dirs_for_each, keeps_dirs_extract_member.
Qed.

(** closes [keeps_dirs] goals over the combinators and primitives *)
Ltac keeps_dirs_auto :=
  repeat first
    [ apply keeps_dirs_extractall
    | apply keeps_dirs_ret | apply keeps_dirs_exit | apply keeps_dirs_raise
    | apply keeps_dirs_print | apply keeps_dirs_exists | apply keeps_dirs_mkdir
    | apply keeps_dirs_write_file | apply keeps_dirs_remove
    | apply keeps_dirs_urlopen
    | apply keeps_dirs_when
    | apply keeps_dirs_bind; [|intros ?] ].

Lemma keeps_dirs_setup : keeps_dirs (setup h).
Proof. unfold setup, nice, damn. keeps_dirs_auto. Qed.

(** X17.  The bootstrap step -- first-time setup, download and
    extraction included -- never removes a directory nor replaces one
    by a file, whether it returns, exits or raises. *)
Theorem bootstrap_keeps_dirs : keeps_dirs (prerun_bootstrap h).
Proof.
  unfold prerun_bootstrap, nice.
  apply keeps_dirs_bind; [apply keeps_dirs_exists|intros b].
  apply keeps_dirs_bind; [|intros _; keeps_dirs_auto].
  apply keeps_dirs_when, keeps_dirs_bind; [apply keeps_dirs_print|].
  intros _. apply keeps_dirs_setup.
Qed.


(** *** What the bootstrap establishes *)

Lemma is_dir_exists (m : FS) (p : string) : is_dir m p -> exists_in m p = true.
Proof. unfold is_dir, exists_in. by intros ->. Qed.

Lemma os_mkdir_ret (p : string) (w w' : world) :
  os_mkdir p w = (Ret tt, w') ->
  is_dir (fs w') p /\
  forall q, exists_in (fs w) q = true -> exists_in (fs w') q = true.
Proof.
  unfold os_mkdir. destruct (exists_in (fs w) p); [discriminate|].
  destruct (parent_error (fs w) p); [discriminate|].
  intros [= <-]. cbn. split; [apply lookup_insert_eq|].
  intros q Hq. rewrite exists_in_insert, Hq. apply orb_true_r.
Qed.

Lemma ensure_dir_ret (d : string) (w w' : world) :
  ensure_dir d w = (Ret tt, w') ->
  exists_in (fs w') d = true /\
  forall q, exists_in (fs w) q = true -> exists_in (fs w') q = true.
Proof.
  unfold ensure_dir, bind, os_path_exists, when.
  destruct (exists_in (fs w) d) eqn:Hd; cbn [negb].
  - intros [= <-]. by split.
  - destruct (os_mkdir d w) as [[[]|c|e] w1] eqn:Hmk; try discriminate.
    apply os_mkdir_ret in Hmk as [Hdir Hkeep].
    unfold nice, print. intros [= <-]. cbn.
    split; [by apply is_dir_exists|exact Hkeep].
Qed.

Lemma prerun_bootstrap_shape :
  prerun_bootstrap h =
    (b <- os_path_exists (odin_path h ["steamcmd"]) ;;
     when (negb b)
          (nice "No steamcmd detected. Running first-time setup.." ;;
           setup h) ;;
     ensure_dir (odin_path h ["worlds"]) ;;
     ensure_dir (odin_path h ["servers"])).
Proof. reflexivity. Qed.

Lemma setup_shape :
  setup h =
    (ensure_dir (odin_path h ["worlds"]) ;;
     b <- os_path_exists (odin_path h ["steamcmd"]) ;;
     when b
          (damn ("Directory already exists: " +:+ odin_path h ["steamcmd"]) ;;
           exit 1) ;;
     os_mkdir (odin_path h ["steamcmd"]) ;;
     nice ("Created directory: " +:+ odin_path h ["steamcmd"]) ;;
     dl <- urlopen_read h steamcmd_url ;;
     write_file (odin_path h ["steamcmd.zip"]) dl ;;
     nice "Downloaded steamcmd" ;;
     zip_extractall h (odin_path h ["steamcmd.zip"]) (odin_path h ["steamcmd"]) ;;
     nice ("Extracted steamcmd to " +:+ odin_path h ["steamcmd"]) ;;
     os_remove (odin_path h ["steamcmd.zip"]) ;;
     nice ("Removed " +:+ odin_path h ["steamcmd.zip"])).
Proof. reflexivity. Qed.

Lemma setup_ret_steamcmd (w w' : world) :
  setup h w = (Ret tt, w') -> is_dir (fs w') (odin_path h ["steamcmd"]).
Proof.
  rewrite setup_shape. intros Hrun.
  apply bind_ret_inv in Hrun as (? & w1 & _ & Hrun).
  apply bind_ret_inv in Hrun as (b & w2 & _ & Hrun).
  apply bind_ret_inv in Hrun as (? & w3 & _ & Hrun).
  apply bind_ret_inv in Hrun as ([] & w4 & Hmk & Hrun).
  apply os_mkdir_ret in Hmk as [Hdir _].
  match type of Hrun with
  | ?rest w4 = _ =>
      assert (Hkeep : keeps_dirs rest) by (unfold nice; keeps_dirs_auto)
  end.
  specialize (Hkeep w4 _ Hdir). by rewrite Hrun in Hkeep.
Qed.

(** X18.  When the bootstrap step returns normally, the installer
    directory, the worlds directory and the servers directory all exist;
    running the step again from that world changes nothing. *)
Theorem bootstrap_establishes (w w' : world) :
  prerun_bootstrap h w = (Ret tt, w') ->
  bootstrapped h (fs w') /\
  prerun_bootstrap h w' = (Ret tt, w').
Proof.
  intros Hrun.
  assert (Hb : bootstrapped h (fs w')).
  { rewrite prerun_bootstrap_shape in Hrun.
    apply bind_ret_inv in Hrun as (b & w0 & Hex & Hrun).
    injection Hex as <- <-.
    apply bind_ret_inv in Hrun as ([] & w1 & Hsetup & Hrun).
    apply bind_ret_inv in Hrun as ([] & w2 & Hworlds & Hservers).
    apply ensure_dir_ret in Hworlds as [Hw Hkeep1].
    apply ensure_dir_ret in Hservers as [Hs Hkeep2].
    repeat split; [|by apply Hkeep2|done].
    apply Hkeep2, Hkeep1.
    unfold when in Hsetup.
    destruct (exists_in (fs w) (odin_path h ["steamcmd"])) eqn:Hsc;
      cbn [negb] in Hsetup.
    - by injection Hsetup as <-.
    - apply bind_ret_inv in Hsetup as ([] & w3 & _ & Hsetup).
      by eapply is_dir_exists, setup_ret_steamcmd. }
  split; [exact Hb|]. by apply bootstrap_noop_run.
Qed.


(** *** What the bootstrap emits *)

Lemma emits_nothing {A} (P : event -> bool) (c : M A) :
  (forall w, log (snd (c w)) = log w) -> emits P c.
Proof. intros Hc w. exists []. by rewrite app_nil_r, Hc. Qed.

Lemma emits_one {A} (P : event -> bool) (c : M A) (e : event) :
  P e = true ->
  (forall w, log (snd (c w)) = log w \/ log (snd (c w)) = (log w ++ [e])%list) ->
  emits P c.
Proof.
  intros HP Hc w. destruct (Hc w) as [Hl|Hl].
  - exists []. by rewrite app_nil_r, Hl.
  - exists [e]. split; [done|]. by repeat constructor.
Qed.

Lemma emits_bind {A B} (P : event -> bool) (m : M A) (f : A -> M B) :
  emits P m -> (forall a, emits P (f a)) -> emits P (bind m f).
Proof.
  intros Hm Hf w. destruct (Hm w) as (evs1 & Hl1 & Hall1). unfold bind.
  destruct (m w) as [[a|c|e] w1]; cbn in *; [|by exists evs1..].
  destruct (Hf a w1) as (evs2 & Hl2 & Hall2).
  exists (evs1 ++ evs2)%list. rewrite Hl2, Hl1, app_assoc.
  split; [done|]. by apply Forall_app.
Qed.

Lemma emits_when (P : event -> bool) (b : bool) (m : M unit) :
  emits P m -> emits P (when b m).
Proof. destruct b; [done|]. intros _. by apply emits_nothing. Qed.

Lemma emits_print (P : event -> bool) (s : string) :
  P (Print s) = true -> emits P (print s).
Proof. intros HP. apply (emits_one P _ (Print s) HP). intros w. by right. Qed.

Lemma emits_mkdir (P : event -> bool) (p : string) :
  P (Mkdir p) = true -> emits P (os_mkdir p).
Proof.
  intros HP. apply (emits_one P _ (Mkdir p) HP). intros w. unfold os_mkdir.
  destruct (exists_in (fs w) p); [by left|].
  destruct (parent_error (fs w) p); [by left|by right].
Qed.

Lemma emits_write_file (P : event -> bool) (p data : string) :
  P (WriteFile p) = true -> emits P (write_file p data).
Proof.
  intros HP. apply (emits_one P _ (WriteFile p) HP). intros w. unfold write_file.
  destruct (fs w !! p) as [[|old]|]; [by left|by right|].
  destruct (parent_error (fs w) p); [by left|by right].
Qed.

Lemma emits_remove (P : event -> bool) (p : string) :
  P (Remove p) = true -> emits P (os_remove p).
Proof.
  intros HP. apply (emits_one P _ (Remove p) HP). intros w. unfold os_remove.
  destruct (fs w !! p) as [[|old]|]; [by left|by right|by left].
Qed.

Lemma emits_read_file (P : event -> bool) (p : string) : emits P (read_file p).
Proof.
  apply emits_nothing. intros w. unfold read_file.
  by destruct (fs w !! p) as [[|old]|].
Qed.

Lemma emits_urlopen (P : event -> bool) (url : string) :
  P (UrlOpen url) = true -> emits P (urlopen_read h url).
Proof.
  intros HP. apply (emits_one P _ (UrlOpen url) HP). intros w.
  unfold urlopen_read. destruct (urlopen h url); by right.
Qed.

Lemma emits_ensure_dir (P : event -> bool) (d : string) :
  (forall p, P (Mkdir p) = true) -> (forall s, P (Print s) = true) ->
  emits P (ensure_dir d).
Proof.
  intros Hmk Hpr. unfold ensure_dir, nice.
  apply emits_bind; [by apply emits_nothing|]. intros b.
  apply emits_when, emits_bind; [by apply emits_mkdir|]. intros _.
  by apply emits_print.
Qed.

Lemma emits_makedirs (P : event -> bool) (fuel : nat) (name : string) :
  (forall p, P (Mkdir p) = true) -> emits P (makedirs fuel name).
Proof.
  intros Hmk. revert name.
  induction fuel as [|fuel IH]; intros name; cbn [makedirs].
  - by apply emits_mkdir.
  - apply emits_bind; [by apply emits_nothing|]. intros b.
    apply emits_bind; [by apply emits_when|]. intros _. by apply emits_mkdir.
Qed.

Lemma emits_extract_member (P : event -> bool) (dir : string) (member : string * string) :
  (forall p, P (Mkdir p) = true) -> (forall p, P (WriteFile p) = true) ->
  emits P (extract_member dir member).
Proof.
  intros Hmk Hwr. destruct member as [filename data]. unfold extract_member.
  apply emits_bind; [by apply emits_nothing|]. intros b.
  apply emits_bind; [by apply emits_when, emits_makedirs|]. intros _.
  destruct (PyStr.endswith_char OsPath.sep filename);
    [|by apply emits_write_file].
  intros w. destruct (fs w !! _) as [[|old]|];
    [exists []; by rewrite app_nil_r|by apply emits_mkdir..].
Qed.

Lemma emits_for_each {A} (P : event -> bool) (l : list A) (body : A -> M unit) :
  (forall x, emits P (body x)) -> emits P (for_each l body).
Proof.
  intros Hbody. induction l as [|x l IH]; cbn [for_each].
  - by apply emits_nothing.
  - apply emits_bind; [apply Hbody|]. intros _. exact IH.
Qed.

Lemma emits_extractall (P : event -> bool) (path dir : string) :
  (forall p, P (Mkdir p) = true) -> (forall p, P (WriteFile p) = true) ->
  emits P (zip_extractall h path dir).
Proof.
  intros Hmk Hwr. unfold zip_extractall.
  apply emits_bind; [apply emits_read_file|]. intros data.
  destruct (zip_members h data); [|by apply emits_nothing].
  apply emits_for_each. intros member. by apply emits_extract_member.
Qed.

(** X19.  The bootstrap step starts no process and removes no directory
    tree, whatever the host and however it ends: its events are prints,
    [mkdir]s, the download, file writes and the removal of the archive. *)
Theorem bootstrap_no_process : emits bootstrap_event (prerun_bootstrap h).
Proof.
  rewrite prerun_bootstrap_shape.
  apply emits_bind; [by apply emits_nothing|]. intros b.
  apply emits_bind;
    [|intros _; apply emits_bind; [|intros _]; by apply emits_ensure_dir].
  apply emits_when, emits_bind; [by apply emits_print|]. intros _.
  rewrite setup_shape. unfold nice, damn.
  repeat first
    [ by apply emits_ensure_dir
    | by apply emits_extractall
    | by apply emits_print | by apply emits_mkdir | by apply emits_write_file
    | by apply emits_remove | by apply emits_urlopen
    | by apply emits_nothing
    | apply emits_when
    | apply emits_bind; [|intros ?] ].
Qed.

Lemma bootstrap_with_steamcmd (w : world) :
  exists_in (fs w) (odin_path h ["steamcmd"]) = true ->
  prerun_bootstrap h w =
    (ensure_dir (odin_path h ["worlds"]) ;; ensure_dir (odin_path h ["servers"])) w.
Proof.
  intros Hsc. rewrite prerun_bootstrap_shape.
  unfold bind at 1 2. unfold os_path_exists, when. by rewrite Hsc.
Qed.

Lemma bootstrap_quiet (w : world) :
  exists_in (fs w) (odin_path h ["steamcmd"]) = true ->
  exists evs,
    log (snd (prerun_bootstrap h w)) = (log w ++ evs)%list /\
    Forall (fun e => quiet_event e = true) evs.
Proof.
  intros Hsc. rewrite bootstrap_with_steamcmd by done.
  apply (emits_bind quiet_event); [|intros _]; by apply emits_ensure_dir.
Qed.

(** X20.  Whenever the installer directory exists -- whatever is in it
    -- the bootstrap step skips the first-time setup: it downloads
    nothing and writes no file; all it may do is make the worlds and
    servers directories and say so. *)
Theorem bootstrap_skips_setup (w : world) :
  exists_in (fs w) (odin_path h ["steamcmd"]) = true ->
  exists evs,
    log (snd (prerun_bootstrap h w)) = (log w ++ evs)%list /\
    Forall (fun e => quiet_event e = true) evs.
Proof. apply bootstrap_quiet. Qed.


(** *** Failures of the first-time setup *)

Lemma bind_raise_inv {A B} (m : M A) (f : A -> M B) (w w' : world) (e : exn) :
  bind m f w = (Raise e, w') ->
  m w = (Raise e, w') \/
  exists a w1, m w = (Ret a, w1) /\ f a w1 = (Raise e, w').
Proof.
  unfold bind. destruct (m w) as [[a|c|e0] w1]; intros Hrun.
  - right. by exists a, w1.
  - discriminate.
  - injection Hrun as <- <-. by left.
Qed.

Lemma os_mkdir_raise (p : string) (w w' : world) (e : exn) :
  os_mkdir p w = (Raise e, w') -> exists k, e = OSError k p.
Proof.
  unfold os_mkdir. destruct (exists_in (fs w) p); [intros [= <- _]; eauto|].
  destruct (parent_error (fs w) p) as [e0|] eqn:Hpar; [|discriminate].
  intros [= <- _]. by eapply parent_error_OSError.
Qed.

Lemma ensure_dir_raise (d : string) (w w' : world) (e : exn) :
  ensure_dir d w = (Raise e, w') -> exists k, e = OSError k d.
Proof.
  unfold ensure_dir, bind, os_path_exists, when.
  destruct (exists_in (fs w) d); cbn [negb]; [discriminate|].
  destruct (os_mkdir d w) as [[[]|c|e0] w1] eqn:Hmk; try discriminate.
  intros [= <- _]. by eapply os_mkdir_raise.
Qed.

(** X21.  [setup] called while the installer directory exists refuses
    to go on: it ends with exit status 1 -- or with the [OSError] of
    making the worlds directory -- and downloads nothing. *)
Theorem setup_conflict (w : world) :
  exists_in (fs w) (odin_path h ["steamcmd"]) = true ->
  (fst (setup h w) = Exit 1 \/
   exists e, fst (setup h w) = Raise e /\
             parent_error (fs w) (odin_path h ["worlds"]) = Some e) /\
  exists evs,
    log (snd (setup h w)) = (log w ++ evs)%list /\
    Forall (fun e => quiet_event e = true) evs.
Proof.
  intros Hsc. rewrite setup_shape.
  unfold ensure_dir, damn, nice, os_mkdir.
  destruct (exists_in (fs w) (odin_path h ["worlds"])) eqn:Hw.
  - step_odin. rewrite Hw. step_odin. rewrite Hsc. step_odin.
    split; [by left|].
    eexists. split; [reflexivity|]. by repeat constructor.
  - destruct (parent_error (fs w) (odin_path h ["worlds"])) as [e|] eqn:Hpar.
    + step_odin. rewrite Hw. step_odin. rewrite Hw, Hpar. step_odin.
      split; [right; by exists e|]. exists []. by rewrite app_nil_r.
    + step_odin. rewrite Hw. step_odin. rewrite Hw, Hpar. step_odin.
      rewrite exists_in_insert, Hsc, orb_true_r. step_odin.
      split; [by left|]. unfold emit. cbn [fs log]. rewrite <- !app_assoc.
      eexists. split; [reflexivity|]. by repeat constructor.
Qed.

Lemma setup_raise_steamcmd (w w' : world) (e : exn) :
  setup h w = (Raise e, w') ->
  e = URLError \/ e = BadZipFile ->
  is_dir (fs w') (odin_path h ["steamcmd"]).
Proof.
  rewrite setup_shape. intros Hrun He.
  apply bind_raise_inv in Hrun as [Hrun | ([] & w1 & _ & Hrun)].
  { apply ensure_dir_raise in Hrun as [k ->]. by destruct He. }
  apply bind_raise_inv in Hrun as [Hrun | (b & w2 & Hex & Hrun)];
    [discriminate|].
  injection Hex as <- <-.
  apply bind_raise_inv in Hrun as [Hrun | ([] & w3 & _ & Hrun)].
  { unfold when in Hrun. destruct (exists_in _ _); discriminate. }
  apply bind_raise_inv in Hrun as [Hrun | ([] & w4 & Hmk & Hrun)].
  { apply os_mkdir_raise in Hrun as [k ->]. by destruct He. }
  apply os_mkdir_ret in Hmk as [Hdir _].
  match type of Hrun with
  | ?rest w4 = _ =>
      assert (Hkeep : keeps_dirs rest) by (unfold nice; keeps_dirs_auto)
  end.
  specialize (Hkeep w4 _ Hdir). by rewrite Hrun in Hkeep.
Qed.

(** X22.  When the bootstrap step dies of the download ([URLError]) or
    of a bad archive ([BadZipFile]), the installer directory it made is
    left behind; every later bootstrap then finds it and skips the
    setup -- nothing is downloaded again. *)
Theorem download_failure_sticks (w w1 : world) (e : exn) :
  prerun_bootstrap h w = (Raise e, w1) ->
  e = URLError \/ e = BadZipFile ->
  is_dir (fs w1) (odin_path h ["steamcmd"]) /\
  exists evs,
    log (snd (prerun_bootstrap h w1)) = (log w1 ++ evs)%list /\
    Forall (fun e => quiet_event e = true) evs.
Proof.
  intros Hrun He.
  assert (Hdir : is_dir (fs w1) (odin_path h ["steamcmd"])).
  { destruct (exists_in (fs w) (odin_path h ["steamcmd"])) eqn:Hsc.
    - rewrite bootstrap_with_steamcmd in Hrun by done.
      apply bind_raise_inv in Hrun as [Hrun | ([] & w2 & _ & Hrun)];
        apply ensure_dir_raise in Hrun as [k ->]; by destruct He.
    - rewrite prerun_bootstrap_shape in Hrun.
      unfold bind at 1 in Hrun. unfold os_path_exists, when in Hrun.
      rewrite Hsc in Hrun. cbn [negb] in Hrun.
      apply bind_raise_inv in Hrun as [Hrun | ([] & w2 & _ & Hrun)].
      + apply bind_raise_inv in Hrun as [Hrun | ([] & w3 & _ & Hrun)];
          [discriminate|].
        by eapply setup_raise_steamcmd.
      + apply bind_raise_inv in Hrun as [Hrun | ([] & w3 & _ & Hrun)];
          apply ensure_dir_raise in Hrun as [k ->]; by destruct He. }
  split; [exact Hdir|]. by apply bootstrap_quiet, is_dir_exists.
Qed.


(** *** More on provisioning and launching *)

(** X23.  Of its own, [create] changes the filesystem by at most the
    one [mkdir] of the Server Directory, and [update] by nothing: the
    filesystem at the end is the one at the start, or that one with the
    new directory, or whatever the installer made of it. *)
Theorem create_own_effect (name : string) (update : bool) (w : world) :
  let m0 := if update then fs w else <[server_dir h name := Dir]> (fs w) in
  fs (snd (create h name update w)) = fs w \/
  fs (snd (create h name update w)) = m0 \/
  exists m' rc,
    run_process h (installer_cmd h name) m0 = Some (m', rc) /\
    fs (snd (create h name update w)) = m'.
Proof.
  cbv zeta.
  destruct (exists_in (fs w) (server_dir h name)) eqn:Hex; destruct update.
  - rewrite update_run by done.
    destruct (run_process h (installer_cmd h name) (fs w)) as [[m' rc]|] eqn:Hproc.
    + right. right. exists m', rc. split; [done|].
      destruct (Z.eq_dec rc 0) as [->|Hrc].
      * by rewrite (check_call_ok _ _ _ m').
      * by rewrite (check_call_fails _ _ _ m' rc).
    + left. by rewrite check_call_not_launched.
  - left. by rewrite create_conflict_run.
  - left. by rewrite update_missing_run.
  - destruct (parent_error (fs w) (server_dir h name)) as [e|] eqn:Hpar.
    { left. by rewrite (create_mkdir_fails _ _ _ e). }
    rewrite create_fresh_run by done.
    destruct (run_process h (installer_cmd h name) (fs (after_mkdir h name w)))
      as [[m' rc]|] eqn:Hproc.
    + right. right. exists m', rc. split; [done|].
      destruct (Z.eq_dec rc 0) as [->|Hrc].
      * by rewrite (check_call_ok _ _ _ m').
      * by rewrite (check_call_fails _ _ _ m' rc).
    + right. left. by rewrite check_call_not_launched.
Qed.

(** X24.  For a provisioned instance whose name, like the port text,
    holds no regular-expression operator, [start name -p PORT] and
    [start name --port PORT] do exactly what [start name] does: the
    port flag changes nothing. *)
Theorem start_ignores_port_flag (name port : string) (w : world) :
  name <> "" ->
  plain name = true ->
  plain port = true ->
  exists_in (fs w) (server_dir h name) = true ->
  start h [name; "-p"; port] w = start h [name] w /\
  start h [name; "--port"; port] w = start h [name] w.
Proof.
  intros Hne Hname Hport Hex.
  rewrite !start_plain_args; try done; by repeat constructor.
Qed.

End Further.

(** ** Runs of the further properties on the stub hosts *)



(** [create foo] passes the argument check. *)
Lemma prerun_args_true_witness :
  prerun_args ["create"; "foo"] (World Stub.ready_fs []) =
    (Ret true, World Stub.ready_fs []).
Proof.
  apply (prerun_args_true ["create"; "foo"]
           (World Stub.ready_fs []) (World Stub.ready_fs [])).
  split; [reflexivity|].
  exists "create", "foo", []. split; reflexivity.
Defined.

(** [start foo] passes [prerun]. *)
Lemma prerun_true_args_witness :
  exists cmd name rest,
    ["start"; "foo"] = cmd :: name :: rest /\
    PyStr.mem cmd dispatched_cmds = true.
Proof.
  apply (prerun_true_args Stub.online_host ["start"; "foo"]
           (World Stub.ready_fs []) (World Stub.ready_fs [])).
  vm_compute. reflexivity.
Defined.

(** [help], offline, on a fresh install root. *)
Lemma main_bootstrap_failure_witness :
  main Stub.failing_host ["help"] (World Stub.fresh_fs []) =
    (Raise URLError, snd (prerun_bootstrap Stub.failing_host (World Stub.fresh_fs []))).
Proof.
  apply (main_bootstrap_failure Stub.failing_host ["help"] (World Stub.fresh_fs [])).
  vm_compute. reflexivity.
Defined.

(** [help me] on a complete install root. *)
Lemma main_help_witness :
  main Stub.online_host ["help"; "me"] (World Stub.ready_fs []) =
    (Exit 0, World Stub.ready_fs [Print help_text]) /\
  main Stub.online_host [] (World Stub.ready_fs []) =
    (Exit 0, World Stub.ready_fs [Print help_text]).
Proof.
  apply (main_help Stub.online_host ["me"]
           (World Stub.ready_fs []) (World Stub.ready_fs [])).
  vm_compute. reflexivity.
Defined.

(** The four commands on [foo], with one more argument. *)
Lemma main_dispatch_witness :
  let h := Stub.online_host in
  let w := World Stub.ready_fs [] in
  main h ["create"; "foo"; "x"] w = create h "foo" false w /\
  main h ["update"; "foo"; "x"] w = create h "foo" true w /\
  main h ["start"; "foo"; "x"] w = start h ["foo"; "x"] w /\
  main h ["backup"; "foo"; "x"] w =
    (Ret tt, World Stub.ready_fs [Print "Not implemented lol."]).
Proof.
  apply (main_dispatch Stub.online_host "foo" ["x"]
           (World Stub.ready_fs []) (World Stub.ready_fs [])).
  vm_compute. reflexivity.
Defined.

(** [create foo now please] is [create foo]. *)
Lemma main_extra_args_ignored_witness :
  main Stub.marker_host ["create"; "foo"; "now"; "please"] (World Stub.ready_fs []) =
  main Stub.marker_host ["create"; "foo"] (World Stub.ready_fs []).
Proof.
  apply (main_extra_args_ignored Stub.marker_host "create" "foo" ["now"; "please"]).
  discriminate.
Defined.

(** [create foo] with the marker-writing installer. *)
Lemma create_success_witness :
  let h := Stub.marker_host in
  create h "foo" false (World Stub.ready_fs []) =
    (Ret tt,
     World (<["/odin/servers/foo/marker" := File "installed"]>
              (<[server_dir h "foo" := Dir]> Stub.ready_fs))
       [ Mkdir (server_dir h "foo");
         Print ("  ✔ Created directory: " +:+ server_dir h "foo");
         Run (installer_cmd h "foo") 0;
         Print "  ✔ Server files downloaded" ]).
Proof.
  apply (create_success Stub.marker_host "foo" (World Stub.ready_fs [])).
  - vm_compute. reflexivity.
  - vm_compute. reflexivity.
  - reflexivity.
Defined.

(** [update foo] with the marker-writing installer. *)
Lemma update_success_witness :
  let h := Stub.marker_host in
  create h "foo" true (World Stub.foo_fs []) =
    (Ret tt,
     World (<["/odin/servers/foo/marker" := File "installed"]> Stub.foo_fs)
       [ Run (installer_cmd h "foo") 0;
         Print "  ✔ Server files downloaded" ]).
Proof.
  apply (update_success Stub.marker_host "foo" (World Stub.foo_fs [])).
  - vm_compute. reflexivity.
  - reflexivity.
Defined.

(** [create a/b] when [servers/a] does not exist. *)
Lemma create_parent_missing_witness :
  exists e,
    (e = ENOENT \/ e = ENOTDIR) /\
    create Stub.marker_host "a/b" false (World Stub.ready_fs []) =
      (Raise (OSError e (server_dir Stub.marker_host "a/b")), World Stub.ready_fs []).
Proof.
  apply (create_parent_missing Stub.marker_host "a/b" (World Stub.ready_fs [])).
  - vm_compute. reflexivity.
  - vm_compute. discriminate.
Defined.


Lemma resuming_installer_keeps (p : string) :
  installer_keeps StubMore.resuming_host p.
Proof.
  intros cmd m m' rc Hrun Hex. cbn in Hrun.
  unfold StubMore.resuming_installer in Hrun.
  destruct (Stub.install_dir cmd) as [d|]; [|by injection Hrun as <- _].
  destruct (exists_in m (d +:+ "/partial")); injection Hrun as <- _;
    rewrite exists_in_insert, Hex; apply orb_true_r.
Qed.

(** [create foo] twice, the installer failing the first time. *)
Lemma create_retry_conflicts_witness :
  let h := StubMore.resuming_host in
  let w1 := snd (create h "foo" false (World Stub.ready_fs [])) in
  create h "foo" false w1 =
    (Exit 1,
     World (fs w1)
       (log w1 ++ [Print ("  ✖ Directory already exists: " +:+ server_dir h "foo")])).
Proof.
  apply (create_retry_conflicts StubMore.resuming_host "foo"
           (World Stub.ready_fs []) _
           (CalledProcessError 1 (installer_cmd StubMore.resuming_host "foo"))).
  - vm_compute. reflexivity.
  - vm_compute. reflexivity.
  - apply resuming_installer_keeps.
  - vm_compute. reflexivity.
Defined.

(** [create foo], the installer failing half-way, then [update foo]. *)
Lemma update_after_failed_create_witness :
  let h := StubMore.resuming_host in
  let w1 := snd (create h "foo" false (World Stub.ready_fs [])) in
  create h "foo" true w1 =
    (Ret tt,
     World (<["/odin/servers/foo/marker" := File "installed"]> (fs w1))
       (log w1 ++ [ Run (installer_cmd h "foo") 0;
                    Print "  ✔ Server files downloaded" ])).
Proof.
  apply (update_after_failed_create StubMore.resuming_host "foo"
           (World Stub.ready_fs []) _
           (CalledProcessError 1 (installer_cmd StubMore.resuming_host "foo"))).
  - vm_compute. reflexivity.
  - vm_compute. reflexivity.
  - apply resuming_installer_keeps.
  - vm_compute. reflexivity.
  - vm_compute. reflexivity.
Defined.

(** The servers directory survives an offline first run. *)
Lemma bootstrap_keeps_dirs_witness :
  is_dir
    (fs (snd (prerun_bootstrap Stub.failing_host
                (World (<["/odin/servers" := Dir]> Stub.fresh_fs) []))))
    "/odin/servers".
Proof.
  apply (bootstrap_keeps_dirs Stub.failing_host
           (World (<["/odin/servers" := Dir]> Stub.fresh_fs) []) "/odin/servers").
  vm_compute. reflexivity.
Defined.

(** The first run on a fresh install root, the download succeeding. *)
Lemma bootstrap_establishes_witness :
  let w' := snd (prerun_bootstrap Stub.online_host (World Stub.fresh_fs [])) in
  bootstrapped Stub.online_host (fs w') /\
  prerun_bootstrap Stub.online_host w' = (Ret tt, w').
Proof.
  apply (bootstrap_establishes Stub.online_host (World Stub.fresh_fs [])).
  vm_compute. reflexivity.
Defined.

(** An install root with an empty [steamcmd] directory and nothing else. *)
Lemma bootstrap_skips_setup_witness :
  let w := World (<["/odin/steamcmd" := Dir]> Stub.fresh_fs) [] in
  exists evs,
    log (snd (prerun_bootstrap Stub.online_host w)) = ([] ++ evs)%list /\
    Forall (fun e => quiet_event e = true) evs.
Proof.
  apply (bootstrap_skips_setup Stub.online_host
           (World (<["/odin/steamcmd" := Dir]> Stub.fresh_fs) [])).
  vm_compute. reflexivity.
Defined.

(** [setup] on a complete install root. *)
Lemma setup_conflict_witness :
  let w := World Stub.ready_fs [] in
  (fst (setup Stub.online_host w) = Exit 1 \/
   exists e, fst (setup Stub.online_host w) = Raise e /\
             parent_error (fs w) (odin_path Stub.online_host ["worlds"]) = Some e) /\
  exists evs,
    log (snd (setup Stub.online_host w)) = ([] ++ evs)%list /\
    Forall (fun e => quiet_event e = true) evs.
Proof.
  apply (setup_conflict Stub.online_host (World Stub.ready_fs [])).
  vm_compute. reflexivity.
Defined.

(** The first run on a fresh install root, offline. *)
Lemma download_failure_sticks_witness :
  let w1 := snd (prerun_bootstrap Stub.failing_host (World Stub.fresh_fs [])) in
  is_dir (fs w1) (odin_path Stub.failing_host ["steamcmd"]) /\
  exists evs,
    log (snd (prerun_bootstrap Stub.failing_host w1)) = (log w1 ++ evs)%list /\
    Forall (fun e => quiet_event e = true) evs.
Proof.
  apply (download_failure_sticks Stub.failing_host (World Stub.fresh_fs []) _ URLError).
  - vm_compute. reflexivity.
  - by left.
Defined.

(** [start foo -p 4455] and [start foo --port 4455] against [start foo]. *)
Lemma start_ignores_port_flag_witness :
  let h := Stub.marker_host in
  let w := World Stub.foo_fs [] in
  start h ["foo"; "-p"; "4455"] w = start h ["foo"] w /\
  start h ["foo"; "--port"; "4455"] w = start h ["foo"] w.
Proof.
  apply (start_ignores_port_flag Stub.marker_host "foo" "4455" (World Stub.foo_fs [])).
  - discriminate.
  - reflexivity.
  - reflexivity.
  - vm_compute. reflexivity.
Defined.
